(** * Momentum-Trading data fetchers: a shallow embedding

    Source files embedded here:
    - [src/robust_data_fetcher.py]  (class [RobustDataFetcher])
    - [src/sample_data_fetcher.py]  (class [SampleDataFetcher])
    - [src/simple_data_fetcher.py]  (class [SimpleDataFetcher])

    Modelling conventions.
    - Python floats are idealised as exact rationals ([Q]); [round(x, 2)] is
      round-half-to-even at two decimals and always yields a fraction with
      denominator 100, so equality of rounded prices is plain equality.
    - A naive [datetime] is the number of microseconds since midnight of
      proleptic Gregorian ordinal 0, as in CPython's [datetime.toordinal].
      The range of [datetime] is not checked: where [now - timedelta(days)]
      leaves [datetime.min .. datetime.max] the source raises
      [OverflowError], so the generators are modelled for the lookbacks
      that keep that date in range ([Calendar.in_range]) and say nothing
      beyond.  The limits of pandas timestamps are not modelled.
    - [numpy.random] is an interface ([RandomState]) with the ranges numpy
      documents for its primitive draws; the distributions used by the
      source are derived from it by numpy's legacy formulas.
    - The builtin [hash] of a [str] is salted per interpreter process
      (PYTHONHASHSEED), so it is a field of the [Process] the code runs in.
    - The wall clock is part of the mutable world; it is read by
      [datetime.now()] and advanced by [time.sleep] only, so a call takes no
      time of its own.
    - The pandas [DataFrame] is the list of its rows, each with its index
      timestamp.  [print] calls are omitted. *)

From Stdlib Require Import ZArith QArith Qround Lia Lqa String Ascii List.
From stdpp Require Import gmap strings sorting.
Import ListNotations.

Local Open Scope Z_scope.

(** ** datetime: ordinals, weekdays, ranges and [strftime('%Y%m%d')] *)

Module Calendar.

Definition datetime := Z.

Definition us_per_second : Z := 1000000.
Definition us_per_day : Z := 86400 * us_per_second.

(** [timedelta(days=d)] and [timedelta(seconds=s)] *)
Definition timedelta (days : Z) : Z := days * us_per_day.
Definition seconds (s : Z) : Z := s * us_per_second.

(** [datetime.toordinal()]: 0001-01-01 is day 1. *)
Definition toordinal (t : datetime) : Z := t / us_per_day.

(** [datetime.weekday()]: Monday is 0, Sunday is 6. *)
Definition weekday (t : datetime) : Z := (toordinal t + 6) mod 7.

(** midnight of the day with the given ordinal *)
Definition fromordinal (n : Z) : datetime := n * us_per_day.

(** [pd.date_range(start=start, end=stop, freq='D')]: the timestamps
    [start], [start + 1 day], ... that do not exceed [stop]. *)
Definition date_range (start stop : datetime) : list datetime :=
  if stop <? start then []
  else map (fun k => start + timedelta (Z.of_nat k))
           (seq 0 (S (Z.to_nat ((stop - start) / us_per_day)))).

(** [date_range[date_range.weekday < 5]] *)
Definition weekdays_only (l : list datetime) : list datetime :=
  List.filter (fun d => weekday d <? 5) l.

(** CPython's [_DAYS_IN_MONTH] and [_DAYS_BEFORE_MONTH] tables *)
Definition DAYS_IN_MONTH (month : Z) : Z :=
  match month with
  | 1 => 31 | 2 => 28 | 3 => 31 | 4 => 30 | 5 => 31 | 6 => 30
  | 7 => 31 | 8 => 31 | 9 => 30 | 10 => 31 | 11 => 30 | 12 => 31
  | _ => -1
  end.

Definition DAYS_BEFORE_MONTH (month : Z) : Z :=
  match month with
  | 1 => 0 | 2 => 31 | 3 => 59 | 4 => 90 | 5 => 120 | 6 => 151
  | 7 => 181 | 8 => 212 | 9 => 243 | 10 => 273 | 11 => 304 | 12 => 334
  | _ => -1
  end.

Definition DI400Y : Z := 146097.
Definition DI100Y : Z := 36524.
Definition DI4Y : Z := 1461.

Definition b2z (b : bool) : Z := if b then 1 else 0.

(** CPython's [_ord2ymd]: ordinal to (year, month, day). *)
Definition ord2ymd (n : Z) : Z * Z * Z :=
  let n := n - 1 in
  let n400 := n / DI400Y in
  let n := n mod DI400Y in
  let year := n400 * 400 + 1 in
  let n100 := n / DI100Y in
  let n := n mod DI100Y in
  let n4 := n / DI4Y in
  let n := n mod DI4Y in
  let n1 := n / 365 in
  let n := n mod 365 in
  let year := year + n100 * 100 + n4 * 4 + n1 in
  if (n1 =? 4) || (n100 =? 4) then (year - 1, 12, 31)
  else
    let leapyear := (n1 =? 3) && (negb (n4 =? 24) || (n100 =? 3)) in
    let month := Z.shiftr (n + 50) 5 in
    let preceding := DAYS_BEFORE_MONTH month + b2z ((2 <? month) && leapyear) in
    if n <? preceding then
      let month := month - 1 in
      let preceding :=
        preceding - (DAYS_IN_MONTH month + b2z ((month =? 2) && leapyear)) in
      (year, month, n - preceding + 1)
    else (year, month, n - preceding + 1).

Definition digit (d : Z) : ascii := ascii_of_nat (48 + Z.to_nat d).

(** decimal digits of [n], zero-padded to [width] characters *)
Fixpoint zpad (width : nat) (n : Z) : string :=
  match width with
  | O => EmptyString
  | S w => zpad w (n / 10) +:+ String (digit (n mod 10)) EmptyString
  end.

(** [t.strftime('%Y%m%d')] *)
Definition strftime_Ymd (t : datetime) : string :=
  let '(y, m, d) := ord2ymd (toordinal t) in
  zpad 4 y +:+ zpad 2 m +:+ zpad 2 d.

(** The calendar window the specification speaks of: the dates from
    [today - lookback] through [today], counted back from today. *)
Fixpoint weekdays_back (today : Z) (lookback : nat) : nat :=
  let here := if (today + 6) mod 7 <? 5 then 1%nat else 0%nat in
  match lookback with
  | O => here
  | S k => (here + weekdays_back (today - 1) k)%nat
  end.

(** [datetime.min] and [datetime.max] by ordinal: 0001-01-01 and
    9999-12-31. *)
Definition MINORDINAL : Z := 1.
Definition MAXORDINAL : Z := 3652059.

(** The timestamps a [datetime] can hold; arithmetic that leaves them
    raises [OverflowError] in the source. *)
Definition in_range (t : datetime) : Prop :=
  MINORDINAL <= toordinal t <= MAXORDINAL.

End Calendar.

(** ** Python numerics on idealised floats *)

Module Py.

(** [max(a, b)]: the later argument wins only when strictly greater. *)
Definition max (a b : Q) : Q :=
  match (b ?= a)%Q with Gt => b | _ => a end.

(** [min(a, b)]: the later argument wins only when strictly smaller. *)
Definition min (a b : Q) : Q :=
  match (b ?= a)%Q with Lt => b | _ => a end.

(** [max(a, b, c)] and [min(a, b, c)] scan their arguments left to right. *)
Definition max3 (a b c : Q) : Q := max (max a b) c.
Definition min3 (a b c : Q) : Q := min (min a b) c.

Definition round_half_even (x : Q) : Z :=
  let f := Qfloor x in
  match (x - inject_Z f ?= 1 # 2)%Q with
  | Lt => f
  | Gt => f + 1
  | Eq => if Z.even f then f else f + 1
  end.

(** [round(x, 2)] *)
Definition round2 (x : Q) : Q := round_half_even (x * 100) # 100.

(** [needle in hay] on strings *)
Fixpoint contains (needle hay : string) : bool :=
  String.prefix needle hay
  || match hay with
     | EmptyString => false
     | String _ rest => contains needle rest
     end.

End Py.

(** ** numpy's legacy global random generator *)

Module Numpy.

(** The primitive draws of numpy's [RandomState] (randomkit's [rk_seed],
    [rk_gauss], [rk_double], [rk_interval]) with their documented ranges:
    [rk_double] lies in [[0, 1)], [rk_interval max] in [[0, max]]. *)
Class RandomState := {
  rk_state : Type;
  rk_seed : Z -> rk_state;
  rk_gauss : rk_state -> Q * rk_state;
  rk_double : rk_state -> Q * rk_state;
  rk_interval : Z -> rk_state -> Z * rk_state;
  rk_double_range :
    forall s, (0 <= fst (rk_double s))%Q /\ (fst (rk_double s) < 1)%Q;
  rk_interval_range :
    forall m s, 0 <= m -> 0 <= fst (rk_interval m s) <= m
}.

Section Distributions.
Context `{RS : RandomState}.

(** [np.random.normal(loc, scale)] *)
Definition normal1 (loc scale : Q) (s : rk_state) : Q * rk_state :=
  let (g, s) := rk_gauss s in ((loc + scale * g)%Q, s).

(** [np.random.normal(loc, scale, size)] *)
Fixpoint normal (loc scale : Q) (size : nat) (s : rk_state)
  : list Q * rk_state :=
  match size with
  | O => ([], s)
  | S n =>
      let (x, s) := normal1 loc scale s in
      let (xs, s) := normal loc scale n s in
      (x :: xs, s)
  end.

(** [np.random.uniform(low, high)] *)
Definition uniform (low high : Q) (s : rk_state) : Q * rk_state :=
  let (u, s) := rk_double s in ((low + (high - low) * u)%Q, s).

(** [np.random.randint(low, high)] for [low < high]: the upper bound
    is exclusive. *)
Definition randint (low high : Z) (s : rk_state) : Z * rk_state :=
  let (k, s) := rk_interval (high - low - 1) s in (low + k, s).

End Distributions.

End Numpy.
Export Numpy.

(** ** Price bars and frames *)

Record Bar := {
  Open : Q;
  High : Q;
  Low : Q;
  Close : Q;
  Volume : Z
}.

(** A [DataFrame] with a [DatetimeIndex]: rows in index order. *)
Definition DataFrame := list (Calendar.datetime * Bar).

(** ** The synthetic OHLCV walk

    Lines 95-125 of [robust_data_fetcher.py] and lines 32-64 of
    [sample_data_fetcher.py] are the same text; they are embedded once,
    with the seed and the base price that each class fixes before them as
    arguments. *)

Module Walk.
Section WithRandom.
Context `{RS : RandomState}.

(** [for ret in rets: prices.append(max(prices[-1] * (1 + ret), 0.01))],
    where [last] is [prices[-1]]; returns the appended prices. *)
Fixpoint extend (last : Q) (rets : list Q) : list Q :=
  match rets with
  | [] => []
  | ret :: rest =>
      let new_price := (last * (1 + ret))%Q in
      let p := Py.max new_price (1 # 100) in
      p :: extend p rest
  end.

(** [prices = [base_price]] followed by the loop over
    [daily_returns[1:]]. *)
Definition prices (base_price : Q) (daily_returns : list Q) : list Q :=
  base_price :: extend base_price (tail daily_returns).

(** One iteration of the OHLC loop, for index [i]. *)
Definition bar (all_prices : list Q) (i : nat) (price : Q) (s : rk_state)
  : Bar * rk_state :=
  let volatility := (price * (2 # 100))%Q in
  let (u, s) := uniform 0 volatility s in
  let high := (price + u)%Q in
  let (d, s) := uniform 0 volatility s in
  let low := (price - d)%Q in
  let open_price :=
    match i with
    | O => price
    | S j => nth j all_prices price
    end in
  let high := Py.max3 high open_price price in
  let low := Py.min3 low open_price price in
  let (volume, s) := randint 1000000 10000000 s in
  ({| Open := Py.round2 open_price;
      High := Py.round2 high;
      Low := Py.round2 low;
      Close := Py.round2 price;
      Volume := volume |}, s).

(** [for i, (date, price) in enumerate(zip(date_range, prices))],
    from index [i] on. *)
Fixpoint bars (all_prices : list Q) (i : nat)
    (rows : list (Calendar.datetime * Q)) (s : rk_state)
  : DataFrame * rk_state :=
  match rows with
  | [] => ([], s)
  | (date, price) :: rest =>
      let (b, s) := bar all_prices i price s in
      let (more, s) := bars all_prices (S i) rest s in
      ((date, b) :: more, s)
  end.

(** From [np.random.seed(seed)] to [pd.DataFrame(data, index=date_range)];
    also returns the state the global generator is left in. *)
Definition frame (seed : Z) (base_price : Q)
    (date_range : list Calendar.datetime) : DataFrame * rk_state :=
  let s := rk_seed seed in
  let (daily_returns, s) :=
    normal (5 # 10000) (2 # 100) (length date_range) s in
  let all_prices := prices base_price daily_returns in
  bars all_prices 0 (combine date_range all_prices) s.

End WithRandom.
End Walk.

(** ** The process and the world the fetchers run in *)

(** What one GET to the time-series endpoint comes to, after
    [response.json()], [pd.DataFrame.from_dict], [pd.to_datetime] and
    [pd.to_numeric]: any exception on the way ([requests], a non-2xx status,
    a malformed body) is [RequestError]; otherwise the three fields the code
    inspects. *)
Inductive Response :=
| RequestError
| Json (error_message note : option string)
       (time_series : option (list (Calendar.datetime * Bar))).

(** What a run of the interpreter is given from outside: the salted [hash]
    of strings, the network (the response to a GET issued at a given time),
    and whether a path can be opened for writing. *)
Record Process := {
  str_hash : string -> Z;
  http_get : Calendar.datetime -> string -> list (string * string) -> Response;
  writable : string -> bool
}.

Inductive exn :=
| OSError (filename : string).

Inductive outcome (A : Type) :=
| Returned (a : A)
| Raised (e : exn).
Arguments Returned {A} a.
Arguments Raised {A} e.

Module IO.
Section WithRandom.
Context `{RS : RandomState}.

(** Mutable state: the wall clock, numpy's global generator and the
    files written so far, by path. *)
Record World := {
  clock : Calendar.datetime;
  np_random : rk_state;
  files : gmap string DataFrame
}.

Definition t (A : Type) : Type := World -> outcome A * World.

Definition ret {A} (a : A) : t A := fun w => (Returned a, w).

Definition bind {A B} (c : t A) (k : A -> t B) : t B :=
  fun w =>
    match c w with
    | (Returned a, w') => k a w'
    | (Raised e, w') => (Raised e, w')
    end.

(** [try: c  except Exception: return h] *)
Definition try_except {A} (c : t A) (h : A) : t A :=
  fun w =>
    match c w with
    | (Returned a, w') => (Returned a, w')
    | (Raised _, w') => (Returned h, w')
    end.

(** [datetime.now()] *)
Definition now : t Calendar.datetime := fun w => (Returned (clock w), w).

(** [time.sleep(secs)] *)
Definition sleep (secs : Z) : t unit :=
  fun w =>
    (Returned tt,
     {| clock := clock w + Calendar.seconds secs;
        np_random := np_random w;
        files := files w |}).

(** Run a computation that reseeds the global generator and leaves it
    in a new state. *)
Definition reseeded {A} (c : A * rk_state) : t A :=
  fun w =>
    (Returned (fst c),
     {| clock := clock w; np_random := snd c; files := files w |}).

(** [df.to_csv(filename)]: creates or overwrites the file. *)
Definition to_csv (P : Process) (df : DataFrame) (filename : string)
  : t unit :=
  fun w =>
    if writable P filename then
      (Returned tt,
       {| clock := clock w;
          np_random := np_random w;
          files := <[filename := df]> (files w) |})
    else (Raised (OSError filename), w).

End WithRandom.
End IO.

Notation "'do' x <- c ; k" := (IO.bind c (fun x => k))
  (at level 10, x name, c at level 100, k at level 200).
Notation "'run' c ; k" := (IO.bind c (fun _ => k))
  (at level 10, c at level 100, k at level 200).

(** ** The shared HTTP path

    [RobustDataFetcher.fetch_real_data] (lines 22-71) and the body of
    [SimpleDataFetcher.fetch_data] up to its filter (lines 21-67) are the
    same text up to the messages printed. *)

Module Client.
Section WithRandom.
Context `{RS : RandomState}.

Definition index_le (a b : Calendar.datetime * Bar) : Prop := a.1 ≤ b.1.

#[local] Instance index_le_dec : RelDecision index_le.
Proof. intros a b. unfold index_le. apply _. Defined.

(** [df.sort_index()] *)
Definition sort_index (df : DataFrame) : DataFrame :=
  merge_sort index_le df.

Definition params (symbol api_key : string) : list (string * string) :=
  [("function", "TIME_SERIES_DAILY"); ("symbol", symbol);
   ("outputsize", "full"); ("apikey", api_key)].

(** From the GET to the period filter; [None] wherever the source
    returns [None], raises inside its [try], or finds [df.empty].  The
    request is answered as of the clock reading at which it is issued. *)
Definition fetch_daily (P : Process) (base_url api_key symbol period : string)
  : IO.t (option DataFrame) :=
  do issued <- IO.now;
  match http_get P issued base_url (params symbol api_key) with
  | RequestError => IO.ret None
  | Json (Some _) _ _ => IO.ret None
  | Json None (Some _) _ => IO.ret None
  | Json None None None => IO.ret None
  | Json None None (Some []) => IO.ret None
  | Json None None (Some time_series) =>
      let df := sort_index time_series in
      do df <- (if String.eqb period "1y" then
                  do today <- IO.now;
                  let cutoff_date := today - Calendar.timedelta 365 in
                  IO.ret (List.filter (fun row => cutoff_date <=? row.1) df)
                else IO.ret df);
      match df with
      | [] => IO.ret None
      | _ => IO.ret (Some df)
      end
  end.

End WithRandom.
End Client.

(** ** [class RobustDataFetcher] *)

Module RobustDataFetcher.
Section WithRandom.
Context `{RS : RandomState}.

Record self := {
  data_dir : string;
  api_key : string;
  base_url : string
}.

Definition default_key : string := "XOLA7URKC6PQJEXY".

(** [__init__(data_dir='data', api_key=None)]; [api_key or default]
    takes the default for [None] and for the empty string. *)
Definition init (data_dir : string) (api_key : option string) : self :=
  {| data_dir := data_dir;
     api_key := match api_key with
                | None | Some EmptyString => default_key
                | Some k => k
                end;
     base_url := "https://www.alphavantage.co/query" |}.

Definition fetch_real_data (P : Process) (o : self) (symbol period : string)
  : IO.t (option DataFrame) :=
  Client.fetch_daily P (base_url o) (api_key o) symbol period.

(** [hash(symbol) % 1000] *)
Definition seed_of (P : Process) (symbol : string) : Z :=
  str_hash P symbol mod 1000.

Definition base_price_of (symbol : string) : Q :=
  if String.eqb symbol "SPY" then 100%Q else 150%Q.

(** Lines 77-127, for [days] that keep [now - timedelta(days=days)] in
    [Calendar.in_range]. *)
Definition generate_sample_data (P : Process) (symbol : string) (days : Z)
  : IO.t DataFrame :=
  do t0 <- IO.now;
  let start_date := t0 - Calendar.timedelta days in
  do end_date <- IO.now;
  let date_range := Calendar.date_range start_date end_date in
  let date_range := Calendar.weekdays_only date_range in
  IO.reseeded
    (Walk.frame (seed_of P symbol) (base_price_of symbol) date_range).

Definition snapshot_path (o : self) (symbol : string)
    (today : Calendar.datetime) : string :=
  data_dir o +:+ "/" +:+ symbol +:+ "_"
    +:+ Calendar.strftime_Ymd today +:+ ".csv".

(** [self.api_key and 'XOLA7URKC6PQJEXY' in self.api_key] *)
Definition rate_limited (o : self) : bool :=
  match api_key o with
  | EmptyString => false
  | k => Py.contains default_key k
  end.

Definition fetch_data (P : Process) (o : self) (symbol period : string)
    (fallback_to_sample : bool) : IO.t (option DataFrame) :=
  do df <- fetch_real_data P o symbol period;
  do df <- match df with
           | None =>
               if fallback_to_sample then
                 do d <- generate_sample_data P symbol 252;
                 IO.ret (Some d)
               else IO.ret None
           | Some _ => IO.ret df
           end;
  match df with
  | Some d =>
      do today <- IO.now;
      let filename := snapshot_path o symbol today in
      run IO.to_csv P d filename;
      run (if rate_limited o then IO.sleep 12 else IO.ret tt);
      IO.ret df
  | None => IO.ret df
  end.

(** The loop of [get_multiple_symbols], with [data] the dict so far. *)
Fixpoint collect (P : Process) (o : self) (symbols : list string)
    (period : string) (data : gmap string DataFrame)
  : IO.t (gmap string DataFrame) :=
  match symbols with
  | [] => IO.ret data
  | symbol :: rest =>
      do df <- fetch_data P o symbol period true;
      collect P o rest period
        (match df with
         | Some d => <[symbol := d]> data
         | None => data
         end)
  end.

Definition get_multiple_symbols (P : Process) (o : self)
    (symbols : list string) (period : string)
  : IO.t (gmap string DataFrame) :=
  collect P o symbols period ∅.

End WithRandom.
End RobustDataFetcher.

(** ** [class SampleDataFetcher] *)

Module SampleDataFetcher.
Section WithRandom.
Context `{RS : RandomState}.

Record self := { data_dir : string }.

Definition init (data_dir : string) : self := {| data_dir := data_dir |}.

(** Lines 16-64: the frame, before it is saved; when no start date is
    given, for [days] that keep [now - timedelta(days=days)] in
    [Calendar.in_range]. *)
Definition sample_frame (start_date end_date : option Calendar.datetime)
    (days : Z) : IO.t DataFrame :=
  do start_date <- match start_date with
                   | None =>
                       do t0 <- IO.now;
                       IO.ret (t0 - Calendar.timedelta days)
                   | Some d => IO.ret d
                   end;
  do end_date <- match end_date with
                 | None => IO.now
                 | Some d => IO.ret d
                 end;
  let date_range := Calendar.date_range start_date end_date in
  let date_range := Calendar.weekdays_only date_range in
  IO.reseeded (Walk.frame 42 100%Q date_range).

Definition snapshot_path (o : self) (symbol : string)
    (today : Calendar.datetime) : string :=
  data_dir o +:+ "/" +:+ symbol +:+ "_sample_"
    +:+ Calendar.strftime_Ymd today +:+ ".csv".

Definition generate_sample_data (P : Process) (o : self) (symbol : string)
    (start_date end_date : option Calendar.datetime) (days : Z)
  : IO.t DataFrame :=
  do df <- sample_frame start_date end_date days;
  do today <- IO.now;
  let filename := snapshot_path o symbol today in
  run IO.to_csv P df filename;
  IO.ret df.

Fixpoint collect (P : Process) (o : self) (symbols : list string)
    (days : Z) (data : gmap string DataFrame)
  : IO.t (gmap string DataFrame) :=
  match symbols with
  | [] => IO.ret data
  | symbol :: rest =>
      do df <- generate_sample_data P o symbol None None days;
      collect P o rest days (<[symbol := df]> data)
  end.

Definition get_multiple_symbols (P : Process) (o : self)
    (symbols : list string) (days : Z) : IO.t (gmap string DataFrame) :=
  collect P o symbols days ∅.

End WithRandom.
End SampleDataFetcher.

(** ** [class SimpleDataFetcher] *)

Module SimpleDataFetcher.
Section WithRandom.
Context `{RS : RandomState}.

Record self := {
  data_dir : string;
  api_key : string;
  base_url : string
}.

Definition init (data_dir : string) (api_key : option string) : self :=
  {| data_dir := data_dir;
     api_key := match api_key with
                | None | Some EmptyString => RobustDataFetcher.default_key
                | Some k => k
                end;
     base_url := "https://www.alphavantage.co/query" |}.

Definition snapshot_path (o : self) (symbol : string)
    (today : Calendar.datetime) : string :=
  data_dir o +:+ "/" +:+ symbol +:+ "_"
    +:+ Calendar.strftime_Ymd today +:+ ".csv".

(** The whole body sits in one [try]: a failed write is caught too. *)
Definition fetch_data (P : Process) (o : self) (symbol period : string)
  : IO.t (option DataFrame) :=
  IO.try_except
    (do df <- Client.fetch_daily P (base_url o) (api_key o) symbol period;
     match df with
     | None => IO.ret None
     | Some d =>
         do today <- IO.now;
         let filename := snapshot_path o symbol today in
         run IO.to_csv P d filename;
         run (if String.eqb (api_key o) "demo" then IO.sleep 12
              else IO.ret tt);
         IO.ret (Some d)
     end)
    None.

(** The loop of [get_multiple_symbols], with [data] the dict so far. *)
Fixpoint collect (P : Process) (o : self) (symbols : list string)
    (data : gmap string DataFrame) : IO.t (gmap string DataFrame) :=
  match symbols with
  | [] => IO.ret data
  | symbol :: rest =>
      do df <- fetch_data P o symbol "1y";
      collect P o rest
        (match df with
         | Some d => <[symbol := d]> data
         | None => data
         end)
  end.

Definition get_multiple_symbols (P : Process) (o : self)
    (symbols : list string) : IO.t (gmap string DataFrame) :=
  collect P o symbols ∅.

End WithRandom.
End SimpleDataFetcher.

(** ** A concrete generator for running the model

    A linear congruential generator standing in for the Mersenne Twister
    where an example needs actual draws. *)

Module Lcg.

Definition next (x : Z) : Z := (x * 1103515245 + 12345) mod 2147483648.

Definition gauss (s : Z) : Q * Z :=
  let s := next s in ((s / 65536) mod 7 - 3 # 1, s).

Definition double (s : Z) : Q * Z :=
  let s := next s in ((s / 65536) mod 1024 # 1024, s).

Definition interval (m : Z) (s : Z) : Z * Z :=
  let s := next s in (s mod (m + 1), s).

Lemma double_range s : (0 <= fst (double s))%Q /\ (fst (double s) < 1)%Q.
Proof.
  unfold double. cbn [fst].
  set (k := (next s / 65536) mod 1024).
  assert (Hk : 0 <= k < 1024) by (apply Z.mod_pos_bound; lia).
  unfold Qle, Qlt. cbn. lia.
Qed.

Lemma interval_range m s : 0 <= m -> 0 <= fst (interval m s) <= m.
Proof.
  intros Hm. unfold interval. cbn [fst].
  pose proof (Z.mod_pos_bound (next s) (m + 1)). lia.
Qed.

#[export] Instance random_state : RandomState := {|
  rk_state := Z;
  rk_seed := fun seed => seed;
  rk_gauss := gauss;
  rk_double := double;
  rk_interval := interval;
  rk_double_range := double_range;
  rk_interval_range := interval_range
|}.

End Lcg.

(** ** A generator that always draws the same numbers

    Its interval draw is [k] whenever [k] is within the bounds asked for;
    the band draws and the returns are zero. *)

Module Stuck.

Definition interval (k m : Z) (s : unit) : Z * unit :=
  (Z.max 0 (Z.min m k), s).

Lemma stuck_interval_range k m s : 0 <= m -> 0 <= fst (interval k m s) <= m.
Proof. intros Hm. unfold interval. cbn [fst]. lia. Qed.

Lemma stuck_double_range (s : unit) :
  (0 <= fst (0%Q, s))%Q /\ (fst (0%Q, s) < 1)%Q.
Proof. split; [discriminate | reflexivity]. Qed.

Definition random_state (k : Z) : RandomState := {|
  rk_state := unit;
  rk_seed := fun _ => tt;
  rk_gauss := fun s => (0%Q, s);
  rk_double := fun s => (0%Q, s);
  rk_interval := interval k;
  rk_double_range := stuck_double_range;
  rk_interval_range := stuck_interval_range k
|}.

End Stuck.

(** ** Notions the properties are stated with *)

(** The OHLC invariant of a bar. *)
Definition ohlc_ok (b : Bar) : Prop :=
  (Low b <= Open b)%Q /\ (Open b <= High b)%Q /\
  (Low b <= Close b)%Q /\ (Close b <= High b)%Q.

(** Every row of a frame. *)
Definition every_bar (good : Bar -> Prop) (df : DataFrame) : Prop :=
  Forall (fun row => good (snd row)) df.

Section Derived.
Context `{RS : RandomState}.
Import Calendar.

(** The frame [RobustDataFetcher.generate_sample_data] builds when the
    clock reads [today]. *)
Definition robust_frame (P : Process) (symbol : string) (days : Z)
    (today : datetime) : DataFrame * rk_state :=
  Walk.frame (RobustDataFetcher.seed_of P symbol)
             (RobustDataFetcher.base_price_of symbol)
             (weekdays_only (date_range (today - timedelta days) today)).

(** The dates [SampleDataFetcher.generate_sample_data] covers. *)
Definition sample_dates (start_date end_date : option datetime) (days : Z)
    (today : datetime) : list datetime :=
  weekdays_only
    (date_range (match start_date with
                 | None => today - timedelta days
                 | Some d => d
                 end)
                (match end_date with None => today | Some d => d end)).

(** The clock after [fetch_data] has saved a frame at time [t]. *)
Definition after_save (o : RobustDataFetcher.self) (t : datetime) : datetime :=
  if RobustDataFetcher.rate_limited o then t + seconds 12 else t.

(** [RobustDataFetcher.generate_sample_data] returns a frame that is [good]. *)
Definition robust_yields (P : Process) (symbol : string) (days : Z)
    (w : IO.World) (good : DataFrame -> Prop) : Prop :=
  exists df w',
    RobustDataFetcher.generate_sample_data P symbol days w = (Returned df, w')
    /\ good df.

(** [SampleDataFetcher.generate_sample_data] builds a frame that is [good],
    and returns it unless writing it raises. *)
Definition sample_yields (P : Process) (o : SampleDataFetcher.self)
    (symbol : string) (start_date end_date : option Calendar.datetime)
    (days : Z) (w : IO.World) (good : DataFrame -> Prop) : Prop :=
  exists df w',
    SampleDataFetcher.sample_frame start_date end_date days w = (Returned df, w')
    /\ good df
    /\ (fst (SampleDataFetcher.generate_sample_data
               P o symbol start_date end_date days w) = Returned df
        \/ exists filename,
             fst (SampleDataFetcher.generate_sample_data
                    P o symbol start_date end_date days w)
             = Raised (OSError filename)).

End Derived.

(** ** Concrete runs

    The process, objects and worlds the examples are run on. *)

Module Scenario.
Import Lcg.

(** A process with no network and a writable disk, whose string hash is
    salted by [salt]. *)
Definition offline (salt : Z) : Process :=
  {| str_hash := fun s => salt + Z.of_nat (String.length s);
     http_get := fun _ _ _ => RequestError;
     writable := fun _ => true |}.

Definition fetcher : RobustDataFetcher.self := RobustDataFetcher.init "data" None.

Definition sampler : SampleDataFetcher.self := SampleDataFetcher.init "data".

(** Saturday 2024-06-01, 10:00, and the Sunday after it. *)
Definition saturday : IO.World :=
  {| IO.clock := Calendar.fromordinal 739038 + Calendar.seconds 36000;
     IO.np_random := 0;
     IO.files := ∅ |}.

Definition sunday : IO.World :=
  {| IO.clock := Calendar.fromordinal 739039 + Calendar.seconds 36000;
     IO.np_random := 0;
     IO.files := ∅ |}.

End Scenario.

(** The world twelve seconds after [Scenario.saturday], with the global
    generator in another state. *)
Module Later.
Import Lcg.

Definition saturday : IO.World :=
  {| IO.clock := IO.clock Scenario.saturday + Calendar.seconds 12;
     IO.np_random := 7;
     IO.files := ∅ |}.

End Later.

(** ** Notions the further properties are stated with *)

(** The rows of a payload that the period filter lets through at clock
    reading [today]. *)
Definition kept_rows (period : string) (today : Calendar.datetime)
    (time_series : DataFrame) : DataFrame :=
  if String.eqb period "1y" then
    List.filter (fun row => today - Calendar.timedelta 365 <=? row.1) time_series
  else time_series.

(** A response from which [fetch_daily] gets no data at clock reading
    [today]. *)
Definition no_data (resp : Response) (period : string)
    (today : Calendar.datetime) : Prop :=
  match resp with
  | RequestError => True
  | Json (Some _) _ _ => True
  | Json None (Some _) _ => True
  | Json None None None => True
  | Json None None (Some ts) => kept_rows period today ts = []
  end.

(** A process whose endpoint answers with three daily rows in the order
    the provider sends them (newest first), one of them older than a year
    on 2024-06-01; for the symbol "ERR" the payload also carries an error
    message, for "NOTE" a rate-limit note.  The disk is writable unless
    [readonly]. *)
Module Live.

Definition row (ord : Z) (close : Q) : Calendar.datetime * Bar :=
  (Calendar.fromordinal ord,
   {| Open := close; High := (close + 1)%Q; Low := (close - 1)%Q;
      Close := close; Volume := 1000 |}).

Definition payload : DataFrame :=
  [row 739037 (528 # 1); row 739036 (525 # 1); row 738522 (380 # 1)].

Definition respond (params : list (string * string)) : Response :=
  match params with
  | [_; (_, symbol); _; _] =>
      if String.eqb symbol "ERR" then
        Json (Some "Invalid API call.") None (Some payload)
      else if String.eqb symbol "NOTE" then
        Json None (Some "Thank you for using Alpha Vantage!") (Some payload)
      else Json None None (Some payload)
  | _ => RequestError
  end.

Definition process (readonly : bool) : Process :=
  {| str_hash := fun s => Z.of_nat (String.length s);
     http_get := fun _ _ params => respond params;
     writable := fun _ => negb readonly |}.

Definition simple : SimpleDataFetcher.self := SimpleDataFetcher.init "data" None.

End Live.

(** The pause [fetch_data] makes after a save. *)
Definition pause (o : RobustDataFetcher.self) : Z :=
  if RobustDataFetcher.rate_limited o then Calendar.seconds 12 else 0.


(** Each bar opens at the close of the bar before it; the first one, with
    no bar before it, at its own close. *)
Fixpoint chained (prev : option Q) (df : DataFrame) : Prop :=
  match df with
  | [] => True
  | (_, b) :: rest =>
      Open b = match prev with Some c => c | None => Close b end
      /\ chained (Some (Close b)) rest
  end.

(** The intraday band on the rounded fields of a bar: the high is the open
    or at most 2% (and a cent of rounding) above the close, the low is the
    open or at most 2% (and a cent) below it. *)
Definition in_band (b : Bar) : Prop :=
  ((High b <= Open b)%Q
   \/ (High b <= (102 # 100) * Close b + (101 # 10000))%Q)
  /\ ((Open b <= Low b)%Q
      \/ ((98 # 100) * Close b - (101 # 10000) <= Low b)%Q).

(** * Properties *)

(** ** The calendar on known dates *)

Example ordinal_20240601 : Calendar.ord2ymd 739038 = (2024, 6, 1).
Proof. reflexivity. Qed.

Example strftime_20240601 :
  Calendar.strftime_Ymd (Calendar.fromordinal 739038 + Calendar.seconds 3600) = "20240601".
Proof. vm_compute. reflexivity. Qed.

Example weekday_20240602 : Calendar.weekday (Calendar.fromordinal 739039) = 6.
Proof. reflexivity. Qed.

Example ord2ymd_samples :
  map Calendar.ord2ymd [1; 365; 366; 730119; 3652059; 693596; 36524; 146097; 146098]
  = [(1, 1, 1); (1, 12, 31); (2, 1, 1); (1999, 12, 31); (9999, 12, 31);
     (1900, 1, 1); (100, 12, 31); (400, 12, 31); (401, 1, 1)].
Proof. reflexivity. Qed.

(** ** Python numerics *)

Section PyFacts.
Local Open Scope Q_scope.

Lemma max_ge_l a b : a <= Py.max a b.
Proof.
  unfold Py.max. destruct (b ?= a) eqn:E; try apply Qle_refl.
  apply Qlt_le_weak. now apply Qgt_alt.
Qed.

Lemma max_ge_r a b : b <= Py.max a b.
Proof.
  unfold Py.max. destruct (b ?= a) eqn:E; try apply Qle_refl.
  - apply Qeq_alt in E. rewrite E. apply Qle_refl.
  - apply Qlt_le_weak. now apply Qlt_alt.
Qed.

Lemma min_le_l a b : Py.min a b <= a.
Proof.
  unfold Py.min. destruct (b ?= a) eqn:E; try apply Qle_refl.
  apply Qlt_le_weak. now apply Qlt_alt.
Qed.

Lemma min_le_r a b : Py.min a b <= b.
Proof.
  unfold Py.min. destruct (b ?= a) eqn:E; try apply Qle_refl.
  - apply Qeq_alt in E. rewrite E. apply Qle_refl.
  - apply Qlt_le_weak. now apply Qgt_alt.
Qed.

Lemma max3_bounds a b c :
  a <= Py.max3 a b c /\ b <= Py.max3 a b c /\ c <= Py.max3 a b c.
Proof.
  unfold Py.max3. repeat split.
  - eapply Qle_trans; [apply max_ge_l | apply max_ge_l].
  - eapply Qle_trans; [apply max_ge_r | apply max_ge_l].
  - apply max_ge_r.
Qed.

Lemma min3_bounds a b c :
  Py.min3 a b c <= a /\ Py.min3 a b c <= b /\ Py.min3 a b c <= c.
Proof.
  unfold Py.min3. repeat split.
  - eapply Qle_trans; [apply min_le_l | apply min_le_l].
  - eapply Qle_trans; [apply min_le_l | apply min_le_r].
  - apply min_le_r.
Qed.

(** The rounded value is the floor or the floor plus one. *)
Lemma round_half_even_floor x :
  (Qfloor x <= Py.round_half_even x <= Qfloor x + 1)%Z.
Proof.
  unfold Py.round_half_even.
  destruct (x - inject_Z (Qfloor x) ?= 1 # 2); [destruct (Z.even _) | |]; lia.
Qed.

Lemma round_half_even_mono x y :
  x <= y -> (Py.round_half_even x <= Py.round_half_even y)%Z.
Proof.
  intros Hxy.
  pose proof (Qfloor_resp_le _ _ Hxy) as Hf.
  pose proof (round_half_even_floor x) as Hx.
  pose proof (round_half_even_floor y) as Hy.
  destruct (Z.eq_dec (Qfloor x) (Qfloor y)) as [Heq | Hne]; [| lia].
  unfold Py.round_half_even in *. rewrite <- Heq in *.
  set (f := Qfloor x) in *.
  assert (Hr : x - inject_Z f <= y - inject_Z f)
    by (apply Qplus_le_l; exact Hxy).
  destruct (x - inject_Z f ?= 1 # 2) eqn:Ex; [| lia |].
  - apply Qeq_alt in Ex. rewrite Ex in Hr.
    destruct (y - inject_Z f ?= 1 # 2) eqn:Ey.
    + lia.
    + apply Qlt_alt in Ey.
      exfalso. exact (Qlt_irrefl _ (Qle_lt_trans _ _ _ Hr Ey)).
    + destruct (Z.even f); lia.
  - apply Qgt_alt in Ex.
    assert (Hy' : 1 # 2 < y - inject_Z f)
      by (eapply Qlt_le_trans; [exact Ex | exact Hr]).
    apply Qgt_alt in Hy'. rewrite Hy'. lia.
Qed.

Lemma round2_mono x y : x <= y -> Py.round2 x <= Py.round2 y.
Proof.
  intros Hxy. unfold Py.round2.
  assert (H : x * 100 <= y * 100)
    by (apply Qmult_le_compat_r; [exact Hxy | discriminate]).
  apply round_half_even_mono in H.
  unfold Qle. cbn. lia.
Qed.

Lemma round2_cent : Py.round2 (1 # 100) = 1 # 100.
Proof. reflexivity. Qed.

End PyFacts.

(** ** The synthetic walk *)


Section WalkFacts.
Context `{RS : RandomState}.
Local Open Scope Q_scope.

Lemma normal_length loc scale n s :
  length (fst (normal loc scale n s)) = n.
Proof.
  revert s. induction n as [| n IH]; intros s; cbn; [reflexivity |].
  unfold normal1. destruct (rk_gauss s) as [g s1].
  specialize (IH s1). destruct (normal loc scale n s1) as [xs s2].
  cbn in *. now rewrite IH.
Qed.

Lemma extend_length last rets :
  length (Walk.extend last rets) = length rets.
Proof.
  revert last. induction rets as [| r rets IH]; intros last; cbn;
    [reflexivity | now rewrite IH].
Qed.

Lemma extend_floor last rets :
  Forall (fun p => 1 # 100 <= p) (Walk.extend last rets).
Proof.
  revert last. induction rets as [| r rets IH]; intros last; cbn.
  - constructor.
  - constructor; [apply max_ge_r | apply IH].
Qed.

(** Every price of the walk is at least 0.01 when the base price is. *)
Lemma prices_floor base_price daily_returns :
  1 # 100 <= base_price ->
  Forall (fun p => 1 # 100 <= p) (Walk.prices base_price daily_returns).
Proof.
  intros Hb. unfold Walk.prices. constructor; [exact Hb | apply extend_floor].
Qed.

Lemma prices_length base_price daily_returns :
  length (Walk.prices base_price daily_returns)
  = Nat.max 1 (length daily_returns).
Proof.
  unfold Walk.prices. cbn [length]. rewrite extend_length.
  destruct daily_returns; cbn; lia.
Qed.

(** The fields of one bar, before any draw is known. *)
Lemma bar_fields all_prices i price s :
  let b := fst (Walk.bar all_prices i price s) in
  ohlc_ok b /\ Close b = Py.round2 price /\
  (1000000 <= Volume b <= 9999999)%Z.
Proof.
  unfold Walk.bar, uniform, randint.
  destruct (rk_double s) as [u s1].
  destruct (rk_double s1) as [d s2].
  pose proof (rk_interval_range (10000000 - 1000000 - 1) s2) as Hv.
  destruct (rk_interval (10000000 - 1000000 - 1) s2) as [k s3].
  cbn [fst] in *. cbn [Open High Low Close Volume].
  set (open_price := match i with O => price | S j => nth j all_prices price end).
  set (hi := price + (0 + (price * (2 # 100) - 0) * u)).
  set (lo := price - (0 + (price * (2 # 100) - 0) * d)).
  destruct (max3_bounds hi open_price price) as (_ & Ho & Hp).
  destruct (min3_bounds lo open_price price) as (_ & Ho' & Hp').
  unfold ohlc_ok. cbn [Open High Low Close Volume].
  repeat split; try (apply round2_mono; assumption); lia.
Qed.

Lemma bars_index all_prices rows : forall i s,
  map fst (fst (Walk.bars all_prices i rows s)) = map fst rows.
Proof.
  induction rows as [| [date price] rows IH]; intros i s; cbn;
    [reflexivity |].
  destruct (Walk.bar all_prices i price s) as [b s1].
  specialize (IH (S i) s1).
  destruct (Walk.bars all_prices (S i) rows s1) as [more s2].
  cbn in *. now rewrite IH.
Qed.

(** A property of single bars that holds whatever the index and the
    generator state carries over to every row of the loop's frame. *)
Lemma bars_Forall (good : Q -> Bar -> Prop) all_prices rows :
  (forall i price s, good price (fst (Walk.bar all_prices i price s))) ->
  forall i s,
    Forall2 (fun row out => good (snd row) (snd out))
            rows (fst (Walk.bars all_prices i rows s)).
Proof.
  intros Hbar. induction rows as [| [date price] rows IH]; intros i s; cbn.
  - constructor.
  - pose proof (Hbar i price s) as Hb.
    destruct (Walk.bar all_prices i price s) as [b s1].
    specialize (IH (S i) s1).
    destruct (Walk.bars all_prices (S i) rows s1) as [more s2].
    cbn in *. constructor; assumption.
Qed.

Lemma frame_index seed base_price date_range :
  map fst (fst (Walk.frame seed base_price date_range)) = date_range.
Proof.
  unfold Walk.frame.
  pose proof (normal_length (5 # 10000) (2 # 100) (length date_range)
                (rk_seed seed)) as Hn.
  destruct (normal _ _ _ _) as [rets s1]. cbn [fst] in Hn.
  rewrite bars_index.
  pose proof (prices_length base_price rets) as Hp.
  remember (Walk.prices base_price rets) as ps eqn:E. clear E.
  assert (Hle : (length date_range <= length ps)%nat) by lia.
  clear - Hle. revert ps Hle.
  induction date_range as [| d ds IH]; intros [| p ps] Hle; cbn in *;
    try reflexivity; try lia.
  f_equal. apply IH. lia.
Qed.

Lemma frame_length seed base_price date_range :
  length (fst (Walk.frame seed base_price date_range)) = length date_range.
Proof.
  rewrite <- (frame_index seed base_price date_range) at 2.
  now rewrite length_map.
Qed.

(** Every row of a generated frame: OHLC invariant, floored close,
    volume in numpy's half-open range. *)
Lemma frame_rows seed base_price date_range :
  1 # 100 <= base_price ->
  Forall (fun row =>
            ohlc_ok (snd row) /\ 1 # 100 <= Close (snd row) /\
            (1000000 <= Volume (snd row) <= 9999999)%Z)
         (fst (Walk.frame seed base_price date_range)).
Proof.
  intros Hb. unfold Walk.frame.
  destruct (normal _ _ _ _) as [rets s1].
  pose proof (prices_floor base_price rets Hb) as Hfloor.
  set (ps := Walk.prices base_price rets) in *.
  pose proof (bars_Forall
    (fun price b => ohlc_ok b /\ Close b = Py.round2 price /\
                    (1000000 <= Volume b <= 9999999)%Z)
    ps (combine date_range ps) (bar_fields ps) 0%nat s1) as H2.
  assert (Hrows : Forall (fun row => 1 # 100 <= snd row) (combine date_range ps)).
  { apply List.Forall_forall. intros [d p] Hin. apply in_combine_r in Hin.
    rewrite List.Forall_forall in Hfloor. cbn. now apply Hfloor. }
  induction H2 as [| row out rows outs (Hok & Hc & Hv) _ IH].
  - constructor.
  - inversion Hrows as [| ? ? Hrow Hrest]; subst. constructor.
    + split; [exact Hok | split; [| lia]].
      rewrite Hc, <- round2_cent. now apply round2_mono.
    + now apply IH.
Qed.

End WalkFacts.

(** ** The lookback window *)

Section CalendarFacts.
Import Calendar.

Lemma us_per_day_pos : 0 < us_per_day.
Proof. reflexivity. Qed.

Lemma toordinal_shift t k : toordinal (t + timedelta k) = toordinal t + k.
Proof. unfold toordinal, timedelta. apply Z.div_add. discriminate. Qed.

(** A lookback of [days >= 0] days yields [days + 1] daily timestamps,
    the last of which is [today] itself. *)
Lemma date_range_lookback today days :
  0 <= days ->
  date_range (today - timedelta days) today
  = map (fun k => today - timedelta days + timedelta (Z.of_nat k))
        (seq 0 (S (Z.to_nat days))).
Proof.
  intros Hd. unfold date_range.
  assert (Ht : 0 <= timedelta days)
    by (unfold timedelta; pose proof us_per_day_pos; nia).
  destruct (Z.ltb_spec today (today - timedelta days)) as [Hlt | _]; [lia |].
  replace (today - (today - timedelta days)) with (days * us_per_day)
    by (unfold timedelta; lia).
  rewrite Z.div_mul by discriminate. reflexivity.
Qed.

Lemma lookback_count t n :
  length (weekdays_only
            (map (fun k => t - timedelta (Z.of_nat n) + timedelta (Z.of_nat k))
                 (seq 0 (S n))))
  = weekdays_back (toordinal t) n.
Proof.
  revert t. induction n as [| n IH]; intros t.
  - cbn [seq map weekdays_only List.filter weekdays_back].
    replace (t - timedelta (Z.of_nat 0) + timedelta (Z.of_nat 0)) with t
      by (unfold timedelta; lia).
    unfold weekday. destruct (_ <? 5); reflexivity.
  - rewrite seq_S, map_app. unfold weekdays_only in *.
    rewrite List.filter_app, List.length_app.
    cbn [map List.filter Nat.add].
    replace (t - timedelta (Z.of_nat (S n)) + timedelta (Z.of_nat (S n)))
      with t by lia.
    rewrite (map_ext _
      (fun k => (t - timedelta 1) - timedelta (Z.of_nat n)
                + timedelta (Z.of_nat k)))
      by (intros k; unfold timedelta; lia).
    rewrite IH.
    replace (t - timedelta 1) with (t + timedelta (-1))
      by (unfold timedelta; lia).
    rewrite toordinal_shift.
    cbn [weekdays_back]. unfold weekday.
    replace (toordinal t + -1) with (toordinal t - 1) by lia.
    destruct (_ <? 5); cbn [length]; lia.
Qed.

Lemma weekdays_back_mod ord n :
  weekdays_back ord n = weekdays_back (ord mod 7) n.
Proof.
  revert ord. induction n as [| n IH]; intros ord; cbn [weekdays_back].
  - now rewrite (Z.add_mod_idemp_l ord 6 7) by discriminate.
  - rewrite (Z.add_mod_idemp_l ord 6 7) by discriminate.
    rewrite (IH (ord - 1)), (IH (ord mod 7 - 1)).
    now rewrite Zminus_mod_idemp_l.
Qed.

Lemma mod7_cases ord :
  ord mod 7 = 0 \/ ord mod 7 = 1 \/ ord mod 7 = 2 \/ ord mod 7 = 3 \/
  ord mod 7 = 4 \/ ord mod 7 = 5 \/ ord mod 7 = 6.
Proof. pose proof (Z.mod_pos_bound ord 7). lia. Qed.

(** 253 consecutive dates hold 180 or 181 weekdays. *)
Lemma weekdays_back_252 ord :
  weekdays_back ord 252 = 180%nat \/ weekdays_back ord 252 = 181%nat.
Proof.
  rewrite weekdays_back_mod.
  destruct (mod7_cases ord) as [H | [H | [H | [H | [H | [H | H]]]]]];
    rewrite H; vm_compute; auto.
Qed.

(** Three consecutive dates always hold a weekday. *)
Lemma weekdays_back_pos ord n : (2 <= n)%nat -> (0 < weekdays_back ord n)%nat.
Proof.
  intros Hn. destruct n as [| [| n]]; try lia.
  assert (Hlast : forall o k, (weekdays_back o 0 <= weekdays_back o k)%nat).
  { intros o k. destruct k; cbn [weekdays_back]; lia. }
  pose proof (Hlast (ord - 1 - 1) n) as Hl.
  cbn [weekdays_back] in Hl |- *. revert Hl.
  destruct (Z.ltb_spec ((ord + 6) mod 7) 5); [lia |].
  destruct (Z.ltb_spec ((ord - 1 + 6) mod 7) 5); [lia |].
  destruct (Z.ltb_spec ((ord - 1 - 1 + 6) mod 7) 5); [lia |].
  exfalso. Z.div_mod_to_equations. lia.
Qed.

(** Two consecutive dates hold no weekday exactly when the later one is
    a Sunday. *)
Lemma weekdays_back_1 ord :
  weekdays_back ord 1 = 0%nat <-> (ord + 6) mod 7 = 6.
Proof.
  rewrite weekdays_back_mod.
  rewrite <- (Z.add_mod_idemp_l ord 6 7) by discriminate.
  destruct (mod7_cases ord) as [H | [H | [H | [H | [H | [H | H]]]]]];
    rewrite H; vm_compute; split; intros; congruence.
Qed.

Lemma lookback_window_length today days :
  0 <= days ->
  length (weekdays_only (date_range (today - timedelta days) today))
  = weekdays_back (toordinal today) (Z.to_nat days).
Proof.
  intros Hd. rewrite date_range_lookback by exact Hd.
  rewrite <- lookback_count. now rewrite Z2Nat.id by exact Hd.
Qed.

Lemma weekdays_only_weekday l :
  Forall (fun d => weekday d < 5) (weekdays_only l).
Proof.
  apply List.Forall_forall. intros d Hin.
  apply List.filter_In in Hin as [_ Hd]. now apply Z.ltb_lt.
Qed.

End CalendarFacts.

(** ** The generators of the two classes *)

Section GeneratorFacts.
Context `{RS : RandomState}.
Import Calendar.


(** The call returns that frame, leaves the global generator in the
    state the frame's draws end in, and touches nothing else. *)
Lemma robust_generate_eq P symbol days (w : IO.World) :
  RobustDataFetcher.generate_sample_data P symbol days w
  = (Returned (fst (robust_frame P symbol days (IO.clock w))),
     {| IO.clock := IO.clock w;
        IO.np_random := snd (robust_frame P symbol days (IO.clock w));
        IO.files := IO.files w |}).
Proof. reflexivity. Qed.

Lemma base_price_floor symbol :
  (1 # 100 <= RobustDataFetcher.base_price_of symbol)%Q.
Proof.
  unfold RobustDataFetcher.base_price_of.
  destruct (String.eqb symbol "SPY"); discriminate.
Qed.


Lemma sample_frame_eq start_date end_date days (w : IO.World) :
  SampleDataFetcher.sample_frame start_date end_date days w
  = (Returned (fst (Walk.frame 42 100%Q
                      (sample_dates start_date end_date days (IO.clock w)))),
     {| IO.clock := IO.clock w;
        IO.np_random :=
          snd (Walk.frame 42 100%Q
                 (sample_dates start_date end_date days (IO.clock w)));
        IO.files := IO.files w |}).
Proof. destruct start_date, end_date; reflexivity. Qed.

(** [SampleDataFetcher.generate_sample_data] returns the frame of
    [sample_frame] once it is written, and raises when it cannot be. *)
Lemma sample_generate_eq P o symbol start_date end_date days (w : IO.World) :
  let df := fst (Walk.frame 42 100%Q
                   (sample_dates start_date end_date days (IO.clock w))) in
  let s := snd (Walk.frame 42 100%Q
                  (sample_dates start_date end_date days (IO.clock w))) in
  let filename := SampleDataFetcher.snapshot_path o symbol (IO.clock w) in
  SampleDataFetcher.generate_sample_data P o symbol start_date end_date days w
  = if writable P filename then
      (Returned df,
       {| IO.clock := IO.clock w; IO.np_random := s;
          IO.files := <[filename := df]> (IO.files w) |})
    else
      (Raised (OSError filename),
       {| IO.clock := IO.clock w; IO.np_random := s;
          IO.files := IO.files w |}).
Proof.
  cbv zeta. unfold SampleDataFetcher.generate_sample_data, IO.bind.
  rewrite sample_frame_eq. unfold IO.now, IO.to_csv, IO.ret. cbn.
  destruct (writable P _); reflexivity.
Qed.

End GeneratorFacts.

(** ** Fetching with fallback *)

Section FetchFacts.
Context `{RS : RandomState}.
Import Calendar.

(** The HTTP path returns a value, never raises, and leaves the world
    as it was. *)
Lemma fetch_daily_pure P url key symbol period (w : IO.World) :
  exists r, Client.fetch_daily P url key symbol period w = (Returned r, w).
Proof.
  unfold Client.fetch_daily, IO.bind, IO.now, IO.ret.
  destruct (http_get P (IO.clock w) url _)
    as [| [e |] [n |] [[| row ts] |]]; eauto.
  destruct (String.eqb period "1y"); cbn;
    match goal with
    | |- context [match ?l with [] => _ | _ :: _ => _ end] => destruct l
    end; eauto.
Qed.

Lemma fetch_real_data_pure P o symbol period (w : IO.World) r :
  fst (RobustDataFetcher.fetch_real_data P o symbol period w) = Returned r ->
  RobustDataFetcher.fetch_real_data P o symbol period w = (Returned r, w).
Proof.
  unfold RobustDataFetcher.fetch_real_data.
  destruct (fetch_daily_pure P (RobustDataFetcher.base_url o)
              (RobustDataFetcher.api_key o) symbol period w) as [r' E].
  rewrite E. cbn. congruence.
Qed.


(** No real data, fallback disabled: [None], and the world untouched. *)
Lemma fetch_data_no_fallback P o symbol period (w : IO.World) :
  fst (RobustDataFetcher.fetch_real_data P o symbol period w) = Returned None ->
  RobustDataFetcher.fetch_data P o symbol period false w = (Returned None, w).
Proof.
  intros H. apply fetch_real_data_pure in H.
  unfold RobustDataFetcher.fetch_data, IO.bind. rewrite H. reflexivity.
Qed.

(** No real data, fallback enabled: the synthetic frame, saved under the
    plain snapshot name. *)
Lemma fetch_data_fallback P o symbol period (w : IO.World) :
  fst (RobustDataFetcher.fetch_real_data P o symbol period w) = Returned None ->
  let F := robust_frame P symbol 252 (IO.clock w) in
  let filename := RobustDataFetcher.snapshot_path o symbol (IO.clock w) in
  RobustDataFetcher.fetch_data P o symbol period true w
  = if writable P filename then
      (Returned (Some (fst F)),
       {| IO.clock := after_save o (IO.clock w);
          IO.np_random := snd F;
          IO.files := <[filename := fst F]> (IO.files w) |})
    else
      (Raised (OSError filename),
       {| IO.clock := IO.clock w; IO.np_random := snd F;
          IO.files := IO.files w |}).
Proof.
  intros H. apply fetch_real_data_pure in H. cbv zeta.
  unfold RobustDataFetcher.fetch_data, IO.bind. rewrite H.
  rewrite robust_generate_eq. unfold IO.ret, IO.now, IO.to_csv. cbn.
  destruct (writable P _); [| reflexivity].
  unfold after_save. destruct (RobustDataFetcher.rate_limited o); reflexivity.
Qed.

(** Real data: the same snapshot name. *)
Lemma fetch_data_real P o symbol period fallback (w : IO.World) d :
  fst (RobustDataFetcher.fetch_real_data P o symbol period w)
    = Returned (Some d) ->
  let filename := RobustDataFetcher.snapshot_path o symbol (IO.clock w) in
  RobustDataFetcher.fetch_data P o symbol period fallback w
  = if writable P filename then
      (Returned (Some d),
       {| IO.clock := after_save o (IO.clock w);
          IO.np_random := IO.np_random w;
          IO.files := <[filename := d]> (IO.files w) |})
    else (Raised (OSError filename), w).
Proof.
  intros H. apply fetch_real_data_pure in H. cbv zeta.
  unfold RobustDataFetcher.fetch_data, IO.bind. rewrite H.
  unfold IO.ret, IO.now, IO.to_csv. cbn.
  destruct (writable P _); [| reflexivity].
  unfold after_save. destruct (RobustDataFetcher.rate_limited o); reflexivity.
Qed.

Lemma append_inj_l (p a b : string) : p +:+ a = p +:+ b -> a = b.
Proof.
  induction p as [| c p IH]; cbn; intros H; [exact H |].
  injection H as H. now apply IH.
Qed.

End FetchFacts.



Section Yields.
Context `{RS : RandomState}.

Lemma robust_yields_intro P symbol days (w : IO.World) (good : DataFrame -> Prop) :
  good (fst (robust_frame P symbol days (IO.clock w))) ->
  robust_yields P symbol days w good.
Proof.
  intros H. unfold robust_yields. rewrite robust_generate_eq. eauto.
Qed.

Lemma sample_yields_intro P o symbol start_date end_date days (w : IO.World)
    (good : DataFrame -> Prop) :
  good (fst (Walk.frame 42 100%Q
               (sample_dates start_date end_date days (IO.clock w)))) ->
  sample_yields P o symbol start_date end_date days w good.
Proof.
  intros H. unfold sample_yields. rewrite sample_frame_eq.
  do 2 eexists. split; [reflexivity |]. split; [exact H |].
  pose proof (sample_generate_eq P o symbol start_date end_date days w) as E.
  cbv zeta in E. rewrite E.
  destruct (writable P _); cbn; eauto.
Qed.

Lemma every_bar_frame seed base_price dates (good : Bar -> Prop) :
  (1 # 100 <= base_price)%Q ->
  (forall b, ohlc_ok b -> (1 # 100 <= Close b)%Q ->
             1000000 <= Volume b <= 9999999 -> good b) ->
  every_bar good (fst (Walk.frame seed base_price dates)).
Proof.
  intros Hb Hgood. unfold every_bar.
  eapply Forall_impl; [apply frame_rows; exact Hb |].
  intros row (Hok & Hc & Hv). now apply Hgood.
Qed.

End Yields.

(** * The claims *)

(** C2. For every symbol and every lookback window, of at least one day
    in particular, every bar of the series either generator returns satisfies
    low <= open <= high and low <= close <= high on the prices as rounded
    to two decimals. *)
Theorem ohlc_invariant_after_rounding `{RS : RandomState} :
  forall (P : Process) (o : SampleDataFetcher.self) (symbol : string)
         (start_date end_date : option Calendar.datetime) (days : Z)
         (w : IO.World),
    robust_yields P symbol days w (every_bar ohlc_ok)
    /\ sample_yields P o symbol start_date end_date days w (every_bar ohlc_ok).
Proof.
  intros. split.
  - apply robust_yields_intro, every_bar_frame; [apply base_price_floor | auto].
  - apply sample_yields_intro, every_bar_frame; [discriminate | auto].
Qed.

(** C7. Whatever returns are drawn, every price of the walk is at least
    0.01, and every bar of a generated series has a close of at least 0.01
    after rounding to two decimals. *)
Theorem close_floor_after_rounding `{RS : RandomState} :
  forall (P : Process) (o : SampleDataFetcher.self) (symbol : string)
         (start_date end_date : option Calendar.datetime) (days : Z)
         (w : IO.World),
    (forall daily_returns,
        Forall (fun p => (1 # 100 <= p)%Q)
               (Walk.prices (RobustDataFetcher.base_price_of symbol)
                            daily_returns)
        /\ Forall (fun p => (1 # 100 <= p)%Q) (Walk.prices 100%Q daily_returns))
    /\ robust_yields P symbol days w
         (every_bar (fun b => (1 # 100 <= Close b)%Q))
    /\ sample_yields P o symbol start_date end_date days w
         (every_bar (fun b => (1 # 100 <= Close b)%Q)).
Proof.
  intros. split; [| split].
  - intros rets. split; apply prices_floor;
      [apply base_price_floor | discriminate].
  - apply robust_yields_intro, every_bar_frame; [apply base_price_floor | auto].
  - apply sample_yields_intro, every_bar_frame; [discriminate | auto].
Qed.








(** C10. When the real fetch yields no data and fallback is disabled,
    [fetch_data] returns [None] and changes nothing: no file is written,
    and the clock and the random generator are as before. *)
Theorem no_data_no_fallback_writes_nothing `{RS : RandomState} :
  forall (P : Process) (o : RobustDataFetcher.self) (symbol period : string)
         (w : IO.World),
    fst (RobustDataFetcher.fetch_real_data P o symbol period w) = Returned None ->
    exists w',
      RobustDataFetcher.fetch_data P o symbol period false w = (Returned None, w')
      /\ IO.files w' = IO.files w
      /\ w' = w.
Proof.
  intros P o symbol period w H. exists w.
  rewrite (fetch_data_no_fallback P o symbol period w H). auto.
Qed.

(** C10 for "XYZ" in a process without network. *)
Lemma no_data_no_fallback_writes_nothing_witness :
  exists w',
    RobustDataFetcher.fetch_data (Scenario.offline 0) Scenario.fetcher
      "XYZ" "1y" false Scenario.saturday = (Returned None, w')
    /\ IO.files w' = IO.files Scenario.saturday
    /\ w' = Scenario.saturday.
Proof.
  apply (no_data_no_fallback_writes_nothing (Scenario.offline 0)
           Scenario.fetcher "XYZ" "1y" Scenario.saturday).
  reflexivity.
Defined.

(** C5, as stated, fails: with no data and fallback disabled the call
    returns [None]; nothing is raised. *)
Lemma no_fallback_returns_none_not_an_error :
  RobustDataFetcher.fetch_data (Scenario.offline 0) Scenario.fetcher
    "XYZ" "1y" false Scenario.saturday
  = (Returned None, Scenario.saturday).
Proof. reflexivity. Qed.

(** C5, amended. Given a client that returns no data for the symbol:
    with fallback the call returns the synthetic series (and has saved it,
    provided the snapshot can be written); without fallback it returns
    [None], the absent value, and raises nothing. *)
Theorem fallback_policy `{RS : RandomState} :
  forall (P : Process) (o : RobustDataFetcher.self) (symbol period : string)
         (w : IO.World),
    fst (RobustDataFetcher.fetch_real_data P o symbol period w) = Returned None ->
    writable P (RobustDataFetcher.snapshot_path o symbol (IO.clock w)) = true ->
    (exists df w',
        RobustDataFetcher.fetch_data P o symbol period true w
        = (Returned (Some df), w')
        /\ fst (RobustDataFetcher.generate_sample_data P symbol 252 w)
           = Returned df
        /\ IO.files w'
           !! RobustDataFetcher.snapshot_path o symbol (IO.clock w) = Some df)
    /\ RobustDataFetcher.fetch_data P o symbol period false w
       = (Returned None, w).
Proof.
  intros P o symbol period w Hnone Hw. split.
  - pose proof (fetch_data_fallback P o symbol period w Hnone) as E.
    cbv zeta in E. rewrite Hw in E. rewrite E.
    do 2 eexists. split; [reflexivity |]. split; [reflexivity |].
    cbn. apply lookup_insert_eq.
  - now apply fetch_data_no_fallback.
Qed.

(** The amended C5 for "XYZ" on Saturday 2024-06-01. *)
Lemma fallback_policy_witness :
  (exists df w',
      RobustDataFetcher.fetch_data (Scenario.offline 0) Scenario.fetcher
        "XYZ" "1y" true Scenario.saturday = (Returned (Some df), w')
      /\ fst (RobustDataFetcher.generate_sample_data
                (Scenario.offline 0) "XYZ" 252 Scenario.saturday) = Returned df
      /\ IO.files w' !! "data/XYZ_20240601.csv" = Some df)
  /\ RobustDataFetcher.fetch_data (Scenario.offline 0) Scenario.fetcher
       "XYZ" "1y" false Scenario.saturday
     = (Returned None, Scenario.saturday).
Proof.
  apply (fallback_policy (Scenario.offline 0) Scenario.fetcher "XYZ" "1y"
           Scenario.saturday); reflexivity.
Defined.

(** C9, as stated, fails: the synthetic series [RobustDataFetcher] falls
    back to is saved under the plain name, and no [_sample_] file exists. *)
Lemma fallback_snapshot_has_plain_name :
  exists df w',
    RobustDataFetcher.fetch_data (Scenario.offline 0) Scenario.fetcher
      "XYZ" "1y" true Scenario.saturday = (Returned (Some df), w')
    /\ fst (RobustDataFetcher.generate_sample_data
              (Scenario.offline 0) "XYZ" 252 Scenario.saturday) = Returned df
    /\ IO.files w' !! "data/XYZ_20240601.csv" = Some df
    /\ IO.files w' !! "data/XYZ_sample_20240601.csv" = None.
Proof.
  pose proof (fetch_data_fallback (Scenario.offline 0) Scenario.fetcher
                "XYZ" "1y" Scenario.saturday eq_refl) as E.
  cbv zeta in E. change (writable _ _) with true in E. cbv iota in E.
  rewrite E. do 2 eexists. split; [reflexivity |].
  split; [rewrite robust_generate_eq; reflexivity |].
  cbn [IO.files Scenario.saturday]. split.
  - apply lookup_insert_eq.
  - rewrite lookup_insert_ne by (vm_compute; discriminate).
    apply lookup_empty.
Qed.

(** C9, amended. Every save goes to a path fixed by the class that saves:
    [RobustDataFetcher.fetch_data] and [SimpleDataFetcher.fetch_data] write
    [<dir>/<symbol>_<YYYYMMDD>.csv] for whatever series they obtained, real
    or synthetic; [SampleDataFetcher.generate_sample_data] writes
    [<dir>/<symbol>_sample_<YYYYMMDD>.csv]; a call that returns no series
    or raises writes nothing. *)
Theorem snapshot_path_by_class `{RS : RandomState} :
  forall (P : Process) (symbol : string) (w : IO.World),
    let today := Calendar.strftime_Ymd (IO.clock w) in
    (forall o period fallback,
        let r := RobustDataFetcher.fetch_data P o symbol period fallback w in
        match fst r with
        | Returned (Some df) =>
            IO.files (snd r)
            = <[RobustDataFetcher.data_dir o +:+ "/" +:+ symbol +:+ "_"
                  +:+ today +:+ ".csv" := df]> (IO.files w)
        | _ => IO.files (snd r) = IO.files w
        end)
    /\ (forall o period,
           let r := SimpleDataFetcher.fetch_data P o symbol period w in
           match fst r with
           | Returned (Some df) =>
               IO.files (snd r)
               = <[SimpleDataFetcher.data_dir o +:+ "/" +:+ symbol +:+ "_"
                     +:+ today +:+ ".csv" := df]> (IO.files w)
           | _ => IO.files (snd r) = IO.files w
           end)
    /\ (forall o start_date end_date days,
           let r := SampleDataFetcher.generate_sample_data
                      P o symbol start_date end_date days w in
           match fst r with
           | Returned df =>
               IO.files (snd r)
               = <[SampleDataFetcher.data_dir o +:+ "/" +:+ symbol
                     +:+ "_sample_" +:+ today +:+ ".csv" := df]> (IO.files w)
           | Raised _ => IO.files (snd r) = IO.files w
           end).
Proof.
  intros P symbol w today. split; [| split].
  - intros o period fallback r. subst r.
    destruct (fetch_daily_pure P (RobustDataFetcher.base_url o)
                (RobustDataFetcher.api_key o) symbol period w) as [[d |] E].
    + pose proof (fetch_data_real P o symbol period fallback w d) as F.
      unfold RobustDataFetcher.fetch_real_data in F. rewrite E in F.
      specialize (F eq_refl). cbv zeta in F. rewrite F.
      destruct (writable P _); reflexivity.
    + destruct fallback.
      * pose proof (fetch_data_fallback P o symbol period w) as F.
        unfold RobustDataFetcher.fetch_real_data in F. rewrite E in F.
        specialize (F eq_refl). cbv zeta in F. rewrite F.
        destruct (writable P _); reflexivity.
      * pose proof (fetch_data_no_fallback P o symbol period w) as F.
        unfold RobustDataFetcher.fetch_real_data in F. rewrite E in F.
        specialize (F eq_refl). rewrite F. reflexivity.
  - intros o period r. subst r.
    unfold SimpleDataFetcher.fetch_data, IO.try_except, IO.bind.
    destruct (fetch_daily_pure P (SimpleDataFetcher.base_url o)
                (SimpleDataFetcher.api_key o) symbol period w) as [[d |] E];
      rewrite E; [| reflexivity].
    unfold IO.now, IO.to_csv, IO.ret. cbn.
    destruct (writable P _); [| reflexivity].
    destruct (String.eqb _ _); reflexivity.
  - intros o start_date end_date days r. subst r.
    pose proof (sample_generate_eq P o symbol start_date end_date days w) as E.
    cbv zeta in E. rewrite E.
    destruct (writable P _); reflexivity.
Qed.

(** The run of [get_multiple_symbols] on two symbols when the client has no
    data and the disk is writable: the second symbol is processed after the
    first one's save (and pause). *)
Lemma get_two_offline `{RS : RandomState} P o s1 s2 period (w : IO.World) :
  (forall symbol w0,
      fst (RobustDataFetcher.fetch_real_data P o symbol period w0)
      = Returned None) ->
  (forall f, writable P f = true) ->
  let t1 := IO.clock w in
  let t2 := after_save o t1 in
  let F1 := robust_frame P s1 252 t1 in
  let F2 := robust_frame P s2 252 t2 in
  RobustDataFetcher.get_multiple_symbols P o [s1; s2] period w
  = (Returned (<[s2 := fst F2]> (<[s1 := fst F1]> ∅)),
     {| IO.clock := after_save o t2;
        IO.np_random := snd F2;
        IO.files :=
          <[RobustDataFetcher.snapshot_path o s2 t2 := fst F2]>
            (<[RobustDataFetcher.snapshot_path o s1 t1 := fst F1]>
               (IO.files w)) |}).
Proof.
  intros Hstub Hw. cbv zeta.
  unfold RobustDataFetcher.get_multiple_symbols.
  cbn [RobustDataFetcher.collect]. unfold IO.bind.
  pose proof (fetch_data_fallback P o s1 period w (Hstub s1 w)) as E1.
  cbv zeta in E1. rewrite Hw in E1. rewrite E1.
  match goal with
  | |- context [RobustDataFetcher.fetch_data P o s2 period true ?w1] =>
      pose proof (fetch_data_fallback P o s2 period w1 (Hstub s2 w1)) as E2
  end.
  cbv zeta in E2. rewrite Hw in E2. rewrite E2. reflexivity.
Qed.

Lemma robust_frame_length `{RS : RandomState} P symbol days today :
  0 <= days ->
  length (fst (robust_frame P symbol days today))
  = Calendar.weekdays_back (Calendar.toordinal today) (Z.to_nat days).
Proof.
  intros Hd. unfold robust_frame.
  rewrite frame_length. now apply lookback_window_length.
Qed.

(** C3, on the code: the fallback asks for [days=252], meant as a year of
    trading days, but the window is 252 calendar days; run on Saturday
    2024-06-01 both series have 180 bars, not 252. *)
Lemma lookback_252_has_180_bars :
  exists m w',
    RobustDataFetcher.get_multiple_symbols (Scenario.offline 0)
      Scenario.fetcher ["SPY"; "AAPL"] "1y" Scenario.saturday
    = (Returned m, w')
    /\ length <$> m !! "SPY" = Some 180%nat
    /\ length <$> m !! "AAPL" = Some 180%nat.
Proof.
  pose proof (get_two_offline (Scenario.offline 0) Scenario.fetcher
                "SPY" "AAPL" "1y" Scenario.saturday
                (fun _ _ => eq_refl) (fun _ => eq_refl)) as E.
  cbv zeta in E. rewrite E. do 2 eexists. split; [reflexivity |]. split.
  - rewrite lookup_insert_ne by discriminate.
    rewrite lookup_insert_eq. cbn [fmap option_fmap option_map].
    apply (f_equal Some).
    rewrite robust_frame_length by discriminate. reflexivity.
  - rewrite lookup_insert_eq. cbn [fmap option_fmap option_map].
    apply (f_equal Some).
    rewrite robust_frame_length by discriminate. reflexivity.
Qed.


(** The series depends on the process only through [hash(symbol) % 1000]
    and on the world only through the clock: reseeding discards whatever
    state the global generator was in. *)
Lemma robust_series_by_seed `{RS : RandomState} P1 P2 symbol days
    (w1 w2 : IO.World) :
  RobustDataFetcher.seed_of P1 symbol = RobustDataFetcher.seed_of P2 symbol ->
  IO.clock w1 = IO.clock w2 ->
  fst (RobustDataFetcher.generate_sample_data P1 symbol days w1)
  = fst (RobustDataFetcher.generate_sample_data P2 symbol days w2).
Proof.
  intros Hseed Hclock. rewrite !robust_generate_eq. cbn [fst].
  unfold robust_frame. now rewrite Hseed, Hclock.
Qed.

(** The first bar of a frame closes at the rounded base price. *)
Lemma frame_head_close `{RS : RandomState} seed base_price d ds :
  exists b rest,
    fst (Walk.frame seed base_price (d :: ds)) = (d, b) :: rest
    /\ Close b = Py.round2 base_price.
Proof.
  unfold Walk.frame.
  destruct (normal _ _ _ _) as [rets s1].
  unfold Walk.prices. cbn [combine Walk.bars].
  pose proof (bar_fields (base_price :: Walk.extend base_price (tail rets))
                0 base_price s1) as Hb.
  destruct (Walk.bar _ 0 base_price s1) as [b s2].
  destruct (Walk.bars _ 1 _ s2) as [more s3].
  cbn in *. exists b, more. split; [reflexivity | apply Hb].
Qed.

(** C1, on the code: two interpreter processes that differ only in the
    salt of [hash] seed the generator differently for "AAPL" and return
    different series at the same clock reading. *)
Lemma series_differs_across_processes :
  RobustDataFetcher.seed_of (Scenario.offline 0) "AAPL" = 4
  /\ RobustDataFetcher.seed_of (Scenario.offline 1) "AAPL" = 5
  /\ fst (RobustDataFetcher.generate_sample_data
            (Scenario.offline 0) "AAPL" 252 Scenario.saturday)
     <> fst (RobustDataFetcher.generate_sample_data
               (Scenario.offline 1) "AAPL" 252 Scenario.saturday).
Proof.
  split; [reflexivity |]. split; [reflexivity |].
  intros H.
  apply (f_equal (fun r => match r with
                           | Returned ((_, b) :: _) => Volume b
                           | _ => 0
                           end)) in H.
  lazy in H. discriminate.
Qed.

(** C6, as stated, fails: [SampleDataFetcher] seeds with 42 and starts at
    100.0 whatever the symbol, so "AAPL" and "MSFT" get the same (non-empty)
    series; [RobustDataFetcher] does too in a process where the two hashes
    agree modulo 1000. *)
Lemma aapl_and_msft_share_a_series :
  exists df,
    df <> []
    /\ fst (SampleDataFetcher.generate_sample_data (Scenario.offline 0)
              Scenario.sampler "AAPL" None None 252 Scenario.saturday)
       = Returned df
    /\ fst (SampleDataFetcher.generate_sample_data (Scenario.offline 0)
              Scenario.sampler "MSFT" None None 252 Scenario.saturday)
       = Returned df.
Proof.
  pose proof (sample_generate_eq (Scenario.offline 0) Scenario.sampler
                "AAPL" None None 252 Scenario.saturday) as Ea.
  pose proof (sample_generate_eq (Scenario.offline 0) Scenario.sampler
                "MSFT" None None 252 Scenario.saturday) as Em.
  cbv zeta in Ea, Em.
  change (writable _ _) with true in Ea. change (writable _ _) with true in Em.
  cbv iota in Ea, Em. rewrite Ea, Em. cbn [fst].
  eexists. split; [| split; reflexivity].
  intros Hnil. apply (f_equal (@length _)) in Hnil.
  rewrite frame_length in Hnil. vm_compute in Hnil. discriminate.
Qed.

(** C6, amended. The symbol enters the series only through the seed
    [hash(symbol) % 1000] and the base price (100.0 for "SPY", 150.0
    otherwise) in [RobustDataFetcher], and not at all in
    [SampleDataFetcher]: symbols with equal seed and base price get the
    same series, every symbol gets the same sample series, and a series
    differs from that of "SPY" as soon as it has a bar. *)
Theorem series_varies_only_with_seed_and_base `{RS : RandomState} :
  forall (P : Process) (o : SampleDataFetcher.self) (s1 s2 : string)
         (start_date end_date : option Calendar.datetime) (days : Z)
         (w : IO.World),
    (RobustDataFetcher.seed_of P s1 = RobustDataFetcher.seed_of P s2 ->
     RobustDataFetcher.base_price_of s1 = RobustDataFetcher.base_price_of s2 ->
     RobustDataFetcher.generate_sample_data P s1 days w
     = RobustDataFetcher.generate_sample_data P s2 days w)
    /\ (forall df1 df2,
           fst (SampleDataFetcher.generate_sample_data
                  P o s1 start_date end_date days w) = Returned df1 ->
           fst (SampleDataFetcher.generate_sample_data
                  P o s2 start_date end_date days w) = Returned df2 ->
           df1 = df2)
    /\ (forall df1 df2,
           s2 <> "SPY" ->
           fst (RobustDataFetcher.generate_sample_data P "SPY" days w)
             = Returned df1 ->
           fst (RobustDataFetcher.generate_sample_data P s2 days w)
             = Returned df2 ->
           df1 <> [] -> df1 <> df2).
Proof.
  intros P o s1 s2 start_date end_date days w. split; [| split].
  - intros Hseed Hbase. rewrite !robust_generate_eq.
    unfold robust_frame. now rewrite Hseed, Hbase.
  - intros df1 df2.
    pose proof (sample_generate_eq P o s1 start_date end_date days w) as E1.
    pose proof (sample_generate_eq P o s2 start_date end_date days w) as E2.
    cbv zeta in E1, E2. rewrite E1, E2.
    destruct (writable P _), (writable P _); cbn; congruence.
  - intros df1 df2 Hs2. rewrite !robust_generate_eq. cbn [fst].
    unfold robust_frame. intros [= <-] [= <-] Hne Heq.
    assert (Hb2 : RobustDataFetcher.base_price_of s2 = 150%Q).
    { unfold RobustDataFetcher.base_price_of.
      destruct (String.eqb_spec s2 "SPY"); [contradiction | reflexivity]. }
    rewrite Hb2 in Heq.
    change (RobustDataFetcher.base_price_of "SPY") with 100%Q in Heq, Hne.
    destruct (Calendar.weekdays_only _) as [| d ds].
    + apply Hne. apply length_zero_iff_nil. now rewrite frame_length.
    + destruct (frame_head_close (RobustDataFetcher.seed_of P "SPY")
                  100%Q d ds) as (b1 & r1 & E1 & C1).
      destruct (frame_head_close (RobustDataFetcher.seed_of P s2)
                  150%Q d ds) as (b2 & r2 & E2 & C2).
      rewrite E1, E2 in Heq. injection Heq as Hb _. subst b2.
      rewrite C1 in C2. vm_compute in C2. discriminate.
Qed.

(** The amended C6 in a process where the hashes of "AAPL" and "MSFT"
    agree modulo 1000. *)
Lemma series_varies_only_with_seed_and_base_witness :
  RobustDataFetcher.generate_sample_data (Scenario.offline 0) "AAPL" 252
    Scenario.saturday
  = RobustDataFetcher.generate_sample_data (Scenario.offline 0) "MSFT" 252
      Scenario.saturday.
Proof.
  apply (series_varies_only_with_seed_and_base (Scenario.offline 0)
           Scenario.sampler "AAPL" "MSFT" None None 252 Scenario.saturday);
    reflexivity.
Defined.

(** * Further properties of the fetchers *)

(** ** The HTTP path *)

Section ClientFacts.
Context `{RS : RandomState}.

#[local] Existing Instance Client.index_le_dec.

#[local] Instance index_le_total : Total Client.index_le.
Proof. intros a b. unfold Client.index_le. lia. Qed.

#[local] Instance index_le_trans : Transitive Client.index_le.
Proof. intros a b c. unfold Client.index_le. lia. Qed.

Lemma filter_Permutation_bool {A} (f : A -> bool) (l l' : list A) :
  l ≡ₚ l' -> List.filter f l ≡ₚ List.filter f l'.
Proof.
  induction 1 as [| x l l' _ IH | x y l | l l' l'' _ IH1 _ IH2]; cbn.
  - constructor.
  - destruct (f x); [now constructor | exact IH].
  - destruct (f x), (f y); try reflexivity. constructor.
  - now transitivity (List.filter f l').
Qed.

Lemma filter_StronglySorted {A} (R : relation A) (f : A -> bool) l :
  StronglySorted R l -> StronglySorted R (List.filter f l).
Proof.
  induction 1 as [| x l Hs IH Hx]; cbn; [constructor |].
  destruct (f x); [| exact IH]. constructor; [exact IH |].
  apply List.Forall_forall. intros y Hy. apply List.filter_In in Hy as [Hy _].
  rewrite List.Forall_forall in Hx. now apply Hx.
Qed.

(** What [fetch_daily] makes of a payload without error or note. *)
Lemma fetch_daily_rows P url key symbol period (w : IO.World) ts :
  http_get P (IO.clock w) url (Client.params symbol key)
    = Json None None (Some ts) ->
  exists df,
    StronglySorted Client.index_le df
    /\ df ≡ₚ kept_rows period (IO.clock w) ts
    /\ Client.fetch_daily P url key symbol period w
       = (Returned (match df with [] => None | _ => Some df end), w).
Proof.
  intros Hget. unfold Client.fetch_daily, IO.bind, IO.now, IO.ret.
  rewrite Hget. unfold kept_rows.
  pose proof (StronglySorted_merge_sort Client.index_le ts) as Hsorted.
  pose proof (merge_sort_Permutation Client.index_le ts) as Hperm.
  fold (Client.sort_index ts) in Hsorted, Hperm.
  destruct ts as [| row ts].
  - exists []. destruct (String.eqb period "1y"); cbn; repeat split;
      constructor.
  - destruct (String.eqb period "1y"); cbv beta match zeta.
    + eexists. split; [apply filter_StronglySorted, Hsorted |].
      split; [apply filter_Permutation_bool, Hperm |].
      destruct (List.filter _ _); reflexivity.
    + exists (Client.sort_index (row :: ts)).
      split; [exact Hsorted |]. split; [exact Hperm |].
      destruct (Client.sort_index (row :: ts)); reflexivity.
Qed.

End ClientFacts.

(** X1. When the payload carries no error and no note, [fetch_real_data]
    returns the rows of its time series that pass the period filter (all
    rows unless the period is "1y", else those at most 365 days old),
    ordered by date; it returns [None] when no row passes, and it neither
    raises nor changes the world. *)
Theorem fetch_real_data_rows `{RS : RandomState} :
  forall (P : Process) (o : RobustDataFetcher.self) (symbol period : string)
         (w : IO.World) (ts : DataFrame),
    http_get P (IO.clock w) (RobustDataFetcher.base_url o)
      (Client.params symbol (RobustDataFetcher.api_key o))
      = Json None None (Some ts) ->
    snd (RobustDataFetcher.fetch_real_data P o symbol period w) = w
    /\ match fst (RobustDataFetcher.fetch_real_data P o symbol period w) with
       | Returned (Some df) =>
           df <> [] /\ StronglySorted Client.index_le df
           /\ df ≡ₚ kept_rows period (IO.clock w) ts
       | Returned None => kept_rows period (IO.clock w) ts = []
       | Raised _ => False
       end.
Proof.
  intros P o symbol period w ts Hget.
  destruct (fetch_daily_rows P _ _ symbol period w ts Hget)
    as (df & Hs & Hp & E).
  unfold RobustDataFetcher.fetch_real_data. rewrite E. cbn.
  split; [reflexivity |]. destruct df as [| row df].
  - symmetry. now apply Permutation_nil_l.
  - split; [discriminate | split; assumption].
Qed.

(** X1 on the live payload: two of the three rows are kept, oldest first. *)
Lemma fetch_real_data_rows_witness :
  fst (RobustDataFetcher.fetch_real_data (Live.process false) Scenario.fetcher
         "SPY" "1y" Scenario.saturday)
  = Returned (Some [Live.row 739036 (525 # 1); Live.row 739037 (528 # 1)])
  /\ snd (RobustDataFetcher.fetch_real_data (Live.process false)
            Scenario.fetcher "SPY" "1y" Scenario.saturday)
     = Scenario.saturday.
Proof.
  destruct (fetch_real_data_rows (Live.process false) Scenario.fetcher
              "SPY" "1y" Scenario.saturday Live.payload eq_refl) as [Hw _].
  split; [reflexivity | exact Hw].
Defined.

(** X2. [fetch_real_data] returns [None] exactly when the request fails,
    the payload carries an error message or a note (whatever else it
    carries), it has no time series, or no row of the series passes the
    period filter. *)
Theorem fetch_real_data_none_iff `{RS : RandomState} :
  forall (P : Process) (o : RobustDataFetcher.self) (symbol period : string)
         (w : IO.World),
    fst (RobustDataFetcher.fetch_real_data P o symbol period w) = Returned None
    <-> no_data (http_get P (IO.clock w) (RobustDataFetcher.base_url o)
                   (Client.params symbol (RobustDataFetcher.api_key o)))
                period (IO.clock w).
Proof.
  intros P o symbol period w.
  destruct (http_get P (IO.clock w) (RobustDataFetcher.base_url o)
              (Client.params symbol (RobustDataFetcher.api_key o)))
    as [| [e |] [n |] [ts |]] eqn:Hget;
    try (unfold RobustDataFetcher.fetch_real_data, Client.fetch_daily,
           IO.bind, IO.now, IO.ret; rewrite Hget; cbn; tauto).
  destruct (fetch_daily_rows P _ _ symbol period w ts Hget)
    as (df & _ & Hp & E).
  unfold RobustDataFetcher.fetch_real_data. rewrite E. cbn.
  destruct df as [| r df].
  - split; [intros _ | reflexivity]. symmetry. now apply Permutation_nil_l.
  - split; [discriminate |]. intros Hk. rewrite Hk in Hp.
    apply Permutation_nil_r in Hp. discriminate.
Qed.

Section FetchMore.
Context `{RS : RandomState}.

(** A frame that [fetch_daily] returns has at least one row. *)
Lemma fetch_daily_some_nonempty P url key symbol period (w : IO.World) d :
  fst (Client.fetch_daily P url key symbol period w) = Returned (Some d) ->
  d <> [].
Proof.
  unfold Client.fetch_daily, IO.bind, IO.now, IO.ret.
  destruct (http_get P (IO.clock w) url _)
    as [| [e |] [n |] [[| row ts] |]]; try discriminate.
  destruct (String.eqb period "1y"); cbv beta match zeta;
    match goal with
    | |- context [match ?l with [] => _ | _ :: _ => _ end] =>
        destruct l eqn:El
    end; cbn; intros [= <-]; discriminate.
Qed.

(** With a writable disk, [fetch_data] with fallback always returns a
    series, saved under the snapshot path of the clock reading at entry. *)
Lemma fetch_data_writable P o symbol period (w : IO.World) :
  (forall f, writable P f = true) ->
  exists d s,
    RobustDataFetcher.fetch_data P o symbol period true w
    = (Returned (Some d),
       {| IO.clock := after_save o (IO.clock w);
          IO.np_random := s;
          IO.files :=
            <[RobustDataFetcher.snapshot_path o symbol (IO.clock w) := d]>
              (IO.files w) |}).
Proof.
  intros Hw.
  destruct (fetch_daily_pure P (RobustDataFetcher.base_url o)
              (RobustDataFetcher.api_key o) symbol period w) as [[d |] E].
  - pose proof (fetch_data_real P o symbol period true w d) as F.
    unfold RobustDataFetcher.fetch_real_data in F. rewrite E in F.
    specialize (F eq_refl). cbv zeta in F. rewrite Hw in F. eauto.
  - pose proof (fetch_data_fallback P o symbol period w) as F.
    unfold RobustDataFetcher.fetch_real_data in F. rewrite E in F.
    specialize (F eq_refl). cbv zeta in F. rewrite Hw in F. eauto.
Qed.

Lemma collect_writable P o period symbols :
  (forall f, writable P f = true) ->
  forall (data : gmap string DataFrame) (w : IO.World),
  exists m w',
    RobustDataFetcher.collect P o symbols period data w = (Returned m, w')
    /\ dom m = dom data ∪ list_to_set symbols
    /\ IO.clock w' = IO.clock w + Z.of_nat (length symbols) * pause o.
Proof.
  intros Hw. induction symbols as [| symbol rest IH]; intros data w.
  - exists data, w. split; [reflexivity |].
    split; [now rewrite list_to_set_nil, (right_id_L ∅ (∪)) | cbn [length]; lia].
  - cbn [RobustDataFetcher.collect]. unfold IO.bind.
    destruct (fetch_data_writable P o symbol period w Hw) as (d & s & E).
    rewrite E.
    destruct (IH (<[symbol := d]> data)
                {| IO.clock := after_save o (IO.clock w);
                   IO.np_random := s;
                   IO.files :=
                     <[RobustDataFetcher.snapshot_path o symbol (IO.clock w)
                         := d]> (IO.files w) |})
      as (m & w' & Ec & Hdom & Hclock).
    exists m, w'. split; [exact Ec |]. split.
    + rewrite Hdom, dom_insert_L, list_to_set_cons.
      rewrite (comm_L (∪) {[symbol]} (dom data)).
      now rewrite (assoc_L (∪)).
    + rewrite Hclock. cbn [IO.clock length]. unfold after_save, pause.
      destruct (RobustDataFetcher.rate_limited o); lia.
Qed.

End FetchMore.

(** X3. With the disk writable and fallback enabled,
    [RobustDataFetcher.get_multiple_symbols] never raises and never omits
    a symbol: the keys of the mapping it returns are exactly the symbols
    asked for, whatever the endpoint answers. *)
Theorem get_multiple_symbols_covers_all `{RS : RandomState} :
  forall (P : Process) (o : RobustDataFetcher.self) (symbols : list string)
         (period : string) (w : IO.World),
    (forall f, writable P f = true) ->
    exists m w',
      RobustDataFetcher.get_multiple_symbols P o symbols period w
      = (Returned m, w')
      /\ dom m = list_to_set symbols.
Proof.
  intros P o symbols period w Hw.
  destruct (collect_writable P o period symbols Hw ∅ w)
    as (m & w' & E & Hdom & _).
  exists m, w'. split; [exact E |].
  now rewrite Hdom, dom_empty_L, (left_id_L ∅ (∪)).
Qed.

(** X3 on three symbols, one of them answered with real rows. *)
Lemma get_multiple_symbols_covers_all_witness :
  exists m w',
    RobustDataFetcher.get_multiple_symbols (Live.process false)
      Scenario.fetcher ["SPY"; "ERR"; "NOTE"] "1y" Scenario.saturday
    = (Returned m, w')
    /\ dom m = list_to_set ["SPY"; "ERR"; "NOTE"].
Proof.
  apply (get_multiple_symbols_covers_all (Live.process false)
           Scenario.fetcher ["SPY"; "ERR"; "NOTE"] "1y" Scenario.saturday).
  reflexivity.
Defined.

(** X4. A fetcher built with the default key pauses 12 seconds after every
    save, also when the series saved is the synthetic fallback: with the
    disk writable, [get_multiple_symbols] advances the clock by 12 seconds
    per symbol. *)
Theorem get_multiple_symbols_pauses `{RS : RandomState} :
  forall (P : Process) (data_dir : string) (symbols : list string)
         (period : string) (w : IO.World),
    (forall f, writable P f = true) ->
    IO.clock (snd (RobustDataFetcher.get_multiple_symbols P
                     (RobustDataFetcher.init data_dir None) symbols period w))
    = IO.clock w + Calendar.seconds (12 * Z.of_nat (length symbols)).
Proof.
  intros P data_dir symbols period w Hw.
  destruct (collect_writable P (RobustDataFetcher.init data_dir None)
              period symbols Hw ∅ w) as (m & w' & E & _ & Hclock).
  unfold RobustDataFetcher.get_multiple_symbols. rewrite E. cbn [snd].
  rewrite Hclock. unfold pause.
  change (RobustDataFetcher.rate_limited
            (RobustDataFetcher.init data_dir None)) with true.
  unfold Calendar.seconds. lia.
Qed.

(** X4 without network: two symbols, 24 seconds. *)
Lemma get_multiple_symbols_pauses_witness :
  IO.clock (snd (RobustDataFetcher.get_multiple_symbols (Scenario.offline 0)
                   (RobustDataFetcher.init "data" None) ["SPY"; "AAPL"] "1y"
                   Scenario.saturday))
  = IO.clock Scenario.saturday + Calendar.seconds 24.
Proof.
  apply (get_multiple_symbols_pauses (Scenario.offline 0) "data"
           ["SPY"; "AAPL"] "1y" Scenario.saturday).
  reflexivity.
Defined.

(** X5. When the snapshot cannot be written, [RobustDataFetcher.fetch_data]
    never returns a series: it raises [OSError] for the snapshot path, or
    returns [None] when fallback is off and there was nothing to save; in
    either case no file is created or changed. *)
Theorem fetch_data_write_failure `{RS : RandomState} :
  forall (P : Process) (o : RobustDataFetcher.self) (symbol period : string)
         (fallback : bool) (w : IO.World),
    writable P (RobustDataFetcher.snapshot_path o symbol (IO.clock w)) = false ->
    let r := RobustDataFetcher.fetch_data P o symbol period fallback w in
    IO.files (snd r) = IO.files w
    /\ IO.clock (snd r) = IO.clock w
    /\ (fst r = Raised
                  (OSError (RobustDataFetcher.snapshot_path o symbol (IO.clock w)))
        \/ (fst r = Returned None /\ fallback = false
            /\ fst (RobustDataFetcher.fetch_real_data P o symbol period w)
               = Returned None)).
Proof.
  intros P o symbol period fallback w Hw r. subst r.
  destruct (fetch_daily_pure P (RobustDataFetcher.base_url o)
              (RobustDataFetcher.api_key o) symbol period w) as [[d |] E].
  - pose proof (fetch_data_real P o symbol period fallback w d) as F.
    unfold RobustDataFetcher.fetch_real_data in F. rewrite E in F.
    specialize (F eq_refl). cbv zeta in F. rewrite Hw in F. rewrite F.
    cbn. split; [reflexivity | split; [reflexivity | left; reflexivity]].
  - destruct fallback.
    + pose proof (fetch_data_fallback P o symbol period w) as F.
      unfold RobustDataFetcher.fetch_real_data in F. rewrite E in F.
      specialize (F eq_refl). cbv zeta in F. rewrite Hw in F. rewrite F.
      cbn. split; [reflexivity | split; [reflexivity | left; reflexivity]].
    + pose proof (fetch_data_no_fallback P o symbol period w) as F.
      unfold RobustDataFetcher.fetch_real_data in F |- *. rewrite E in F |- *.
      specialize (F eq_refl). rewrite F. cbn.
      split; [reflexivity | split; [reflexivity | right; auto]].
Qed.

(** X5 on a read-only disk with real rows at hand. *)
Lemma fetch_data_write_failure_witness :
  fst (RobustDataFetcher.fetch_data (Live.process true) Scenario.fetcher
         "SPY" "1y" true Scenario.saturday)
  = Raised (OSError "data/SPY_20240601.csv")
  /\ IO.files (snd (RobustDataFetcher.fetch_data (Live.process true)
                      Scenario.fetcher "SPY" "1y" true Scenario.saturday))
     = ∅.
Proof.
  destruct (fetch_data_write_failure (Live.process true) Scenario.fetcher
              "SPY" "1y" true Scenario.saturday eq_refl)
    as (Hfiles & _ & [Hr | (_ & Hf & _)]); [| discriminate].
  split; [exact Hr | exact Hfiles].
Defined.

(** X6. [SimpleDataFetcher.fetch_data] never raises.  It returns a series
    only when the endpoint gave one and the snapshot was written, under
    the plain snapshot name; when the write fails the error is swallowed:
    the call returns [None] and leaves the world as it was. *)
Theorem simple_fetch_data_never_raises `{RS : RandomState} :
  forall (P : Process) (o : SimpleDataFetcher.self) (symbol period : string)
         (w : IO.World),
    exists r w',
      SimpleDataFetcher.fetch_data P o symbol period w = (Returned r, w')
      /\ match r with
         | Some d =>
             fst (Client.fetch_daily P (SimpleDataFetcher.base_url o)
                    (SimpleDataFetcher.api_key o) symbol period w)
             = Returned (Some d)
             /\ d <> []
             /\ writable P (SimpleDataFetcher.snapshot_path o symbol (IO.clock w))
                = true
             /\ IO.files w'
                = <[SimpleDataFetcher.snapshot_path o symbol (IO.clock w) := d]>
                    (IO.files w)
         | None => w' = w
         end.
Proof.
  intros P o symbol period w.
  unfold SimpleDataFetcher.fetch_data, IO.try_except, IO.bind.
  pose proof (fetch_daily_some_nonempty P (SimpleDataFetcher.base_url o)
                (SimpleDataFetcher.api_key o) symbol period w) as Hne.
  destruct (fetch_daily_pure P (SimpleDataFetcher.base_url o)
              (SimpleDataFetcher.api_key o) symbol period w) as [[d |] E];
    rewrite E in *; [| exists None, w; split; reflexivity].
  unfold IO.now, IO.to_csv, IO.ret. cbn.
  destruct (writable P _) eqn:Hw; [| exists None, w; split; reflexivity].
  destruct (String.eqb _ _); cbn; do 2 eexists;
    (split; [reflexivity |]); cbn;
    (split; [reflexivity |]); (split; [apply Hne; reflexivity |]);
    (split; reflexivity).
Qed.

(** X7. [SimpleDataFetcher] pauses only for the literal key "demo": built
    with any other key, and with its built-in default key in particular,
    [fetch_data] never advances the clock. *)
Theorem simple_fetch_data_pauses_only_for_demo `{RS : RandomState} :
  forall (P : Process) (data_dir : string) (key : option string)
         (symbol period : string) (w : IO.World),
    key <> Some "demo" ->
    IO.clock (snd (SimpleDataFetcher.fetch_data P
                     (SimpleDataFetcher.init data_dir key) symbol period w))
    = IO.clock w.
Proof.
  intros P data_dir key symbol period w Hkey.
  assert (Hne : String.eqb (SimpleDataFetcher.api_key
                              (SimpleDataFetcher.init data_dir key)) "demo"
                = false).
  { apply String.eqb_neq. cbn. destruct key as [[| c k] |]; try discriminate.
    intros Heq. apply Hkey. now rewrite Heq. }
  unfold SimpleDataFetcher.fetch_data, IO.try_except, IO.bind.
  destruct (fetch_daily_pure P
              (SimpleDataFetcher.base_url (SimpleDataFetcher.init data_dir key))
              (SimpleDataFetcher.api_key (SimpleDataFetcher.init data_dir key))
              symbol period w) as [[d |] E]; rewrite E; [| reflexivity].
  unfold IO.now, IO.to_csv, IO.ret. cbv beta match zeta.
  destruct (writable P _); [| reflexivity].
  rewrite Hne. reflexivity.
Qed.

(** X7 with the built-in key and real rows saved. *)
Lemma simple_fetch_data_pauses_only_for_demo_witness :
  IO.clock (snd (SimpleDataFetcher.fetch_data (Live.process false) Live.simple
                   "SPY" "1y" Scenario.saturday))
  = IO.clock Scenario.saturday.
Proof.
  apply (simple_fetch_data_pauses_only_for_demo (Live.process false) "data"
           None "SPY" "1y" Scenario.saturday).
  discriminate.
Defined.

(** ** Symbol loops and snapshot names *)

Section LoopFacts.
Context `{RS : RandomState}.

(** What [SimpleDataFetcher.fetch_data] returns inside the symbol loop. *)
Lemma simple_fetch_in_loop P o symbol (w : IO.World) :
  exists r w',
    SimpleDataFetcher.fetch_data P o symbol "1y" w = (Returned r, w')
    /\ match r with Some d => d <> [] | None => True end.
Proof.
  unfold SimpleDataFetcher.fetch_data, IO.try_except, IO.bind.
  pose proof (fetch_daily_some_nonempty P (SimpleDataFetcher.base_url o)
                (SimpleDataFetcher.api_key o) symbol "1y" w) as Hne.
  destruct (fetch_daily_pure P (SimpleDataFetcher.base_url o)
              (SimpleDataFetcher.api_key o) symbol "1y" w) as [[d |] E];
    rewrite E in *; [| exists None, w; split; [reflexivity | exact I]].
  unfold IO.now, IO.to_csv, IO.ret. cbv beta match zeta.
  destruct (writable P _); [| exists None, w; split; [reflexivity | exact I]].
  destruct (String.eqb _ _); cbn; do 2 eexists;
    (split; [reflexivity |]); apply Hne; reflexivity.
Qed.

Lemma simple_collect_spec P o symbols :
  forall (data : gmap string DataFrame) (w : IO.World),
  exists m w',
    SimpleDataFetcher.collect P o symbols data w = (Returned m, w')
    /\ dom m ⊆ dom data ∪ list_to_set symbols
    /\ (forall s d, m !! s = Some d -> data !! s = Some d \/ d <> []).
Proof.
  induction symbols as [| symbol rest IH]; intros data w.
  - exists data, w. split; [reflexivity |]. split; [| auto].
    apply union_subseteq_l.
  - cbn [SimpleDataFetcher.collect]. unfold IO.bind.
    destruct (simple_fetch_in_loop P o symbol w)
      as (r & w1 & E & Hr).
    rewrite E.
    destruct (IH (match r with Some d => <[symbol := d]> data | None => data end)
                w1) as (m & w' & Ec & Hdom & Hrows).
    exists m, w'. split; [exact Ec |]. split.
    + intros s Hs. apply Hdom in Hs. rewrite list_to_set_cons.
      destruct r as [d |]; [rewrite dom_insert_L in Hs |];
        rewrite !elem_of_union in *; tauto.
    + intros s d Hm. destruct (Hrows s d Hm) as [Hd | Hd]; [| now right].
      destruct r as [d' |]; [| now left].
      destruct (decide (symbol = s)) as [-> | Hne].
      * rewrite lookup_insert_eq in Hd. injection Hd as <-. right. exact Hr.
      * rewrite lookup_insert_ne in Hd by exact Hne. now left.
Qed.

End LoopFacts.

(** X8. [SimpleDataFetcher.get_multiple_symbols] never raises, whatever
    the endpoint answers and whether or not the disk is writable; the
    mapping it returns has only symbols that were asked for as keys, and
    no empty series: symbols without data are left out. *)
Theorem simple_get_multiple_symbols_total `{RS : RandomState} :
  forall (P : Process) (o : SimpleDataFetcher.self) (symbols : list string)
         (w : IO.World),
    exists m w',
      SimpleDataFetcher.get_multiple_symbols P o symbols w = (Returned m, w')
      /\ dom m ⊆ list_to_set symbols
      /\ (forall s d, m !! s = Some d -> d <> []).
Proof.
  intros P o symbols w.
  destruct (simple_collect_spec P o symbols ∅ w) as (m & w' & E & Hdom & Hrows).
  exists m, w'. split; [exact E |]. split.
  - rewrite dom_empty_L, (left_id_L ∅ (∪)) in Hdom. exact Hdom.
  - intros s d Hm. destruct (Hrows s d Hm) as [Hd | Hd]; [| exact Hd].
    rewrite lookup_empty in Hd. discriminate.
Qed.


(** X10. Generating twice is the same as generating once: a second call of
    [SampleDataFetcher.generate_sample_data] with the same arguments at the
    same clock reading returns the same frame and overwrites the snapshot
    with itself, leaving the world as the first call left it. *)
Theorem sample_generate_idempotent `{RS : RandomState} :
  forall (P : Process) (o : SampleDataFetcher.self) (symbol : string)
         (start_date end_date : option Calendar.datetime) (days : Z)
         (w w1 : IO.World) (df : DataFrame),
    SampleDataFetcher.generate_sample_data P o symbol start_date end_date days w
    = (Returned df, w1) ->
    SampleDataFetcher.generate_sample_data P o symbol start_date end_date days w1
    = (Returned df, w1).
Proof.
  intros P o symbol start_date end_date days w w1 df H.
  pose proof (sample_generate_eq P o symbol start_date end_date days w) as E.
  cbv zeta in E. rewrite E in H.
  destruct (writable P _) eqn:Hw; [| discriminate].
  injection H as <- <-.
  pose proof (sample_generate_eq P o symbol start_date end_date days
    {| IO.clock := IO.clock w;
       IO.np_random :=
         snd (Walk.frame 42 100%Q
                (sample_dates start_date end_date days (IO.clock w)));
       IO.files :=
         <[SampleDataFetcher.snapshot_path o symbol (IO.clock w) :=
             fst (Walk.frame 42 100%Q
                    (sample_dates start_date end_date days (IO.clock w)))]>
           (IO.files w) |}) as E1.
  cbv zeta in E1. cbn [IO.clock IO.files] in E1. rewrite Hw in E1.
  rewrite E1. now rewrite insert_insert_eq.
Qed.

(** X10 on Saturday 2024-06-01. *)
Lemma sample_generate_idempotent_witness :
  exists df w1,
    SampleDataFetcher.generate_sample_data (Scenario.offline 0)
      Scenario.sampler "SPY" None None 30 Scenario.saturday = (Returned df, w1)
    /\ SampleDataFetcher.generate_sample_data (Scenario.offline 0)
         Scenario.sampler "SPY" None None 30 w1 = (Returned df, w1).
Proof.
  pose proof (sample_generate_eq (Scenario.offline 0) Scenario.sampler
                "SPY" None None 30 Scenario.saturday) as E.
  cbv zeta in E. change (writable _ _) with true in E. cbv iota in E.
  do 2 eexists. split; [exact E |].
  exact (sample_generate_idempotent _ _ _ _ _ _ _ _ _ E).
Defined.

(** ** Shape of the generated frames *)

Section ShapeFacts.
Context `{RS : RandomState}.

Lemma bar_open_close all_prices i price s :
  Open (fst (Walk.bar all_prices i price s))
  = Py.round2 (match i with O => price | S j => nth j all_prices price end)
  /\ Close (fst (Walk.bar all_prices i price s)) = Py.round2 price.
Proof.
  unfold Walk.bar, uniform, randint.
  destruct (rk_double s) as [u s1]. destruct (rk_double s1) as [d s2].
  destruct (rk_interval _ s2) as [k s3]. split; reflexivity.
Qed.

(** The loop from index [i] on, over the prices from index [i] on. *)
Lemma bars_chained ps : forall dates i s prev,
  (forall j p, i = S j -> prev = Some (Py.round2 (nth j ps p))) ->
  (i = O -> prev = None) ->
  chained prev (fst (Walk.bars ps i (combine dates (drop i ps)) s)).
Proof.
  induction dates as [| d dates IH]; intros i s prev Hprev Hnone;
    [exact I |].
  cbn [combine]. destruct (drop i ps) as [| p rest] eqn:Hdrop; [exact I |].
  assert (Hnth : forall x, nth i ps x = p).
  { intros x. rewrite <- (take_drop i ps) at 1. rewrite Hdrop.
    assert (Hlen : length (take i ps) = i).
    { apply length_take_le. apply Nat.lt_le_incl.
      apply lookup_lt_is_Some. rewrite <- (Nat.add_0_r i).
      rewrite <- lookup_drop, Hdrop. now eexists. }
    rewrite app_nth2 by lia. rewrite Hlen, Nat.sub_diag. reflexivity. }
  assert (Hrest : drop (S i) ps = rest).
  { rewrite <- (Nat.add_1_l i), Nat.add_comm, <- drop_drop, Hdrop.
    reflexivity. }
  cbn [Walk.bars].
  pose proof (bar_open_close ps i p s) as [Ho Hc].
  destruct (Walk.bar ps i p s) as [b s1]. cbn [fst] in Ho, Hc.
  specialize (IH (S i) s1 (Some (Close b))).
  rewrite Hrest in IH.
  destruct (Walk.bars ps (S i) (combine dates rest) s1) as [more s2].
  cbn [fst chained] in *. split.
  - rewrite Ho. destruct i as [| j].
    + rewrite (Hnone eq_refl). now rewrite Hc.
    + now rewrite (Hprev j p eq_refl).
  - apply IH; [| discriminate].
    intros j x [= <-]. now rewrite Hc, Hnth.
Qed.

Lemma frame_chained seed base_price dates :
  chained None (fst (Walk.frame seed base_price dates)).
Proof.
  unfold Walk.frame. destruct (normal _ _ _ _) as [rets s1].
  apply (bars_chained (Walk.prices base_price rets) dates 0%nat s1 None);
    [discriminate | reflexivity].
Qed.

End ShapeFacts.

(** X11. In every generated series each bar opens at the (rounded) close
    of the bar before it, and the first bar opens at its own close. *)
Theorem open_is_previous_close `{RS : RandomState} :
  forall (P : Process) (o : SampleDataFetcher.self) (symbol : string)
         (start_date end_date : option Calendar.datetime) (days : Z)
         (w : IO.World),
    robust_yields P symbol days w (chained None)
    /\ sample_yields P o symbol start_date end_date days w (chained None).
Proof.
  intros. split.
  - apply robust_yields_intro, frame_chained.
  - apply sample_yields_intro, frame_chained.
Qed.

Section IndexFacts.
Import Calendar.

Lemma daily_steps_sorted start n : forall a,
  StronglySorted Z.lt
    (map (fun k => start + timedelta (Z.of_nat k)) (seq a n)).
Proof.
  induction n as [| n IH]; intros a; cbn [seq map]; constructor.
  - apply IH.
  - apply List.Forall_forall. intros y Hy.
    apply in_map_iff in Hy as (k & <- & Hk). apply in_seq in Hk.
    unfold timedelta. pose proof us_per_day_pos. nia.
Qed.

(** The timestamps of a range: increasing, between the two ends, and at
    whole days from the start. *)
Lemma date_range_shape start stop :
  StronglySorted Z.lt (date_range start stop)
  /\ Forall (fun d => start <= d <= stop /\ (d - start) mod us_per_day = 0)
            (date_range start stop).
Proof.
  unfold date_range. destruct (Z.ltb_spec stop start) as [Hlt | Hle].
  - split; constructor.
  - split; [apply daily_steps_sorted |].
    apply List.Forall_forall. intros d Hd.
    apply in_map_iff in Hd as (k & <- & Hk). apply in_seq in Hk.
    pose proof us_per_day_pos as Hpos. unfold timedelta.
    assert (Hq : Z.of_nat k <= (stop - start) / us_per_day).
    { pose proof (Z.div_pos (stop - start) us_per_day). lia. }
    assert (Hm : us_per_day * ((stop - start) / us_per_day) <= stop - start)
      by (apply Z.mul_div_le; exact Hpos).
    split; [nia |].
    replace (start + Z.of_nat k * us_per_day - start)
      with (Z.of_nat k * us_per_day) by lia.
    now apply Z.mod_mul.
Qed.

Lemma weekdays_only_shape (good : datetime -> Prop) l :
  StronglySorted Z.lt l -> Forall good l ->
  StronglySorted Z.lt (weekdays_only l)
  /\ Forall (fun d => good d /\ weekday d < 5) (weekdays_only l).
Proof.
  intros Hs Hg. split; [now apply filter_StronglySorted |].
  apply List.Forall_forall. intros d Hd.
  apply List.filter_In in Hd as [Hin Hw].
  rewrite List.Forall_forall in Hg. split; [now apply Hg | now apply Z.ltb_lt].
Qed.

End IndexFacts.

(** X12. The index of a series from [RobustDataFetcher.generate_sample_data]
    is strictly increasing (so without duplicates); every timestamp is a
    weekday, lies between the start of the lookback and the time of the
    call, and carries the time of day of the call, not midnight. *)
Theorem index_is_increasing_weekdays `{RS : RandomState} :
  forall (P : Process) (symbol : string) (days : Z) (w : IO.World),
    robust_yields P symbol days w
      (fun df =>
         StronglySorted Z.lt (map fst df)
         /\ Forall (fun d =>
                      (IO.clock w - Calendar.timedelta days <= d <= IO.clock w
                       /\ (IO.clock w - d) mod Calendar.us_per_day = 0)
                      /\ Calendar.weekday d < 5)
                   (map fst df)).
Proof.
  intros P symbol days w. apply robust_yields_intro.
  unfold robust_frame. rewrite frame_index.
  destruct (date_range_shape (IO.clock w - Calendar.timedelta days) (IO.clock w))
    as [Hs Hf].
  apply weekdays_only_shape; [exact Hs |].
  eapply Forall_impl; [exact Hf |].
  intros d [Hd Hm]. cbn beta. split; [exact Hd |].
  replace (IO.clock w - d)
    with (- (d - (IO.clock w - Calendar.timedelta days))
          + days * Calendar.us_per_day)
    by (unfold Calendar.timedelta; lia).
  rewrite Z.mod_add by discriminate.
  apply Z.mod_divide in Hm; [| discriminate].
  apply Z.mod_divide; [discriminate |]. now apply Z.divide_opp_r.
Qed.

Section PathFacts.

Lemma append_length (a b : string) :
  String.length (a +:+ b) = (String.length a + String.length b)%nat.
Proof.
  induction a as [| c a IH]; [reflexivity |].
  change (S (String.length (a +:+ b)) = S (String.length a + String.length b)).
  now rewrite IH.
Qed.

Lemma append_inj_r (a b t : string) : a +:+ t = b +:+ t -> a = b.
Proof.
  revert b. induction a as [| c a IH]; intros [| c' b] H.
  - reflexivity.
  - apply (f_equal String.length) in H. rewrite !append_length in H.
    cbn [String.length] in H. lia.
  - apply (f_equal String.length) in H. rewrite !append_length in H.
    cbn [String.length] in H. lia.
  - change (String c (a +:+ t) = String c' (b +:+ t)) in H.
    injection H as -> H. f_equal. now apply IH.
Qed.

Lemma append_assoc (a b c : string) : (a +:+ b) +:+ c = a +:+ (b +:+ c).
Proof.
  induction a as [| x a IH]; [reflexivity |].
  change (String x ((a +:+ b) +:+ c) = String x (a +:+ (b +:+ c))).
  now rewrite IH.
Qed.

End PathFacts.

(** X13. On one day and in one directory two different symbols never get
    the same snapshot path, in either class; but the class alone does not
    keep names apart: the plain snapshot of a symbol ending in "_sample"
    has the path of the [_sample_] snapshot of the symbol without that
    ending. *)
Theorem snapshot_paths_by_symbol :
  forall (data_dir s1 s2 : string) (today : Calendar.datetime),
    (RobustDataFetcher.snapshot_path
       (RobustDataFetcher.init data_dir None) s1 today
     = RobustDataFetcher.snapshot_path
         (RobustDataFetcher.init data_dir None) s2 today
     <-> s1 = s2)
    /\ (SampleDataFetcher.snapshot_path
          (SampleDataFetcher.init data_dir) s1 today
        = SampleDataFetcher.snapshot_path
            (SampleDataFetcher.init data_dir) s2 today
        <-> s1 = s2)
    /\ RobustDataFetcher.snapshot_path
         (RobustDataFetcher.init data_dir None) (s1 +:+ "_sample") today
       = SampleDataFetcher.snapshot_path
           (SampleDataFetcher.init data_dir) s1 today.
Proof.
  intros data_dir s1 s2 today.
  unfold RobustDataFetcher.snapshot_path, SampleDataFetcher.snapshot_path.
  cbn [RobustDataFetcher.data_dir RobustDataFetcher.init
       SampleDataFetcher.data_dir SampleDataFetcher.init].
  split; [| split].
  - split; [| now intros ->]. intros H.
    apply append_inj_l in H. apply (append_inj_l "/") in H.
    now apply append_inj_r in H.
  - split; [| now intros ->]. intros H.
    apply append_inj_l in H. apply (append_inj_l "/") in H.
    now apply append_inj_r in H.
  - now rewrite append_assoc.
Qed.

Section BandFacts.
Context `{RS : RandomState}.
Local Open Scope Q_scope.

Lemma max_lub a b x : a <= x -> b <= x -> Py.max a b <= x.
Proof. intros Ha Hb. unfold Py.max. now destruct (b ?= a). Qed.

Lemma min_glb a b x : x <= a -> x <= b -> x <= Py.min a b.
Proof. intros Ha Hb. unfold Py.min. now destruct (b ?= a). Qed.

(** Rounding to the nearest integer moves a number by at most one half. *)
Lemma round_half_even_error x :
  x - (1 # 2) <= inject_Z (Py.round_half_even x)
  /\ inject_Z (Py.round_half_even x) <= x + (1 # 2).
Proof.
  pose proof (Qfloor_le x) as Hlo. pose proof (Qlt_floor x) as Hhi.
  unfold Py.round_half_even.
  set (f := Qfloor x) in *.
  rewrite inject_Z_plus in Hhi. change (inject_Z 1) with 1 in Hhi.
  assert (Hnext : inject_Z (f + 1) == inject_Z f + 1)
    by (rewrite inject_Z_plus; reflexivity).
  destruct (x - inject_Z f ?= 1 # 2) eqn:E.
  - apply Qeq_alt in E. destruct (Z.even f); [| rewrite Hnext]; lra.
  - apply Qlt_alt in E. lra.
  - apply Qgt_alt in E. rewrite Hnext. lra.
Qed.

(** Rounding to two decimals moves a price by at most half a cent. *)
Lemma round2_error x :
  x - (1 # 200) <= Py.round2 x /\ Py.round2 x <= x + (1 # 200).
Proof.
  destruct (round_half_even_error (x * 100)) as [Hlo Hhi].
  unfold Py.round2.
  assert (E : Py.round_half_even (x * 100) # 100
              == inject_Z (Py.round_half_even (x * 100)) * (1 # 100)).
  { unfold Qeq, inject_Z, Qmult. cbn. lia. }
  rewrite E. lra.
Qed.

(** The band of one bar, on its rounded fields. *)
Lemma bar_band all_prices i price s :
  1 # 100 <= price ->
  let b := fst (Walk.bar all_prices i price s) in
  (High b <= Open b \/ High b <= (102 # 100) * Close b + (101 # 10000))
  /\ (Open b <= Low b \/ (98 # 100) * Close b - (101 # 10000) <= Low b).
Proof.
  intros Hp. unfold Walk.bar, uniform, randint.
  pose proof (rk_double_range s) as [Hu0 Hu1].
  destruct (rk_double s) as [u s1].
  pose proof (rk_double_range s1) as [Hd0 Hd1].
  destruct (rk_double s1) as [d s2].
  destruct (rk_interval _ s2) as [k s3].
  cbn [fst] in *. cbn [Open High Low Close].
  set (o := match i with O => price | S j => nth j all_prices price end).
  set (hi := price + (0 + (price * (2 # 100) - 0) * u)).
  set (lo := price - (0 + (price * (2 # 100) - 0) * d)).
  assert (Hhi : hi <= (102 # 100) * price) by (subst hi; nra).
  assert (Hlo : (98 # 100) * price <= lo) by (subst lo; nra).
  pose proof (round2_error price) as [Hc1 Hc2].
  split.
  - destruct (Qlt_le_dec ((102 # 100) * price) o) as [Ho | Ho].
    + left. apply round2_mono. unfold Py.max3.
      repeat apply max_lub; lra.
    + right.
      assert (Hm : Py.max3 hi o price <= (102 # 100) * price)
        by (unfold Py.max3; repeat apply max_lub; lra).
      apply round2_mono in Hm.
      pose proof (round2_error ((102 # 100) * price)) as [_ H2]. lra.
  - destruct (Qlt_le_dec o ((98 # 100) * price)) as [Ho | Ho].
    + left. apply round2_mono. unfold Py.min3.
      repeat apply min_glb; lra.
    + right.
      assert (Hm : (98 # 100) * price <= Py.min3 lo o price)
        by (unfold Py.min3; repeat apply min_glb; lra).
      apply round2_mono in Hm.
      pose proof (round2_error ((98 # 100) * price)) as [H1 _]. lra.
Qed.

End BandFacts.

Section BandFrames.
Context `{RS : RandomState}.

(** A property every bar over a floored price has holds in every row of a
    frame. *)
Lemma frame_every_bar (good : Bar -> Prop) seed base_price dates :
  (1 # 100 <= base_price)%Q ->
  (forall ps i price s,
      (1 # 100 <= price)%Q -> good (fst (Walk.bar ps i price s))) ->
  every_bar good (fst (Walk.frame seed base_price dates)).
Proof.
  intros Hb Hgood. unfold Walk.frame, every_bar.
  destruct (normal _ _ _ _) as [rets s1].
  pose proof (prices_floor base_price rets Hb) as Hfloor.
  set (ps := Walk.prices base_price rets) in *.
  pose proof (bars_Forall
    (fun price b => (1 # 100 <= price)%Q -> good b)
    ps (combine dates ps) (Hgood ps) 0%nat s1) as H2.
  assert (Hrows : Forall (fun row => (1 # 100 <= snd row)%Q) (combine dates ps)).
  { apply List.Forall_forall. intros [d p] Hin. apply in_combine_r in Hin.
    rewrite List.Forall_forall in Hfloor. cbn. now apply Hfloor. }
  induction H2 as [| row out rows outs Hout _ IH]; [constructor |].
  inversion Hrows as [| ? ? Hrow Hrest]; subst.
  constructor; [now apply Hout | now apply IH].
Qed.

End BandFrames.

(** X14. Every bar of a generated series stays in the 2% band around its
    close unless the open lies outside it: the high is the open or at most
    1.02 times the close plus 0.0101, and the low is the open or at least
    0.98 times the close minus 0.0101 (the last term is the rounding to
    cents). *)
Theorem bars_stay_in_band `{RS : RandomState} :
  forall (P : Process) (o : SampleDataFetcher.self) (symbol : string)
         (start_date end_date : option Calendar.datetime) (days : Z)
         (w : IO.World),
    robust_yields P symbol days w (every_bar in_band)
    /\ sample_yields P o symbol start_date end_date days w (every_bar in_band).
Proof.
  intros. split.
  - apply robust_yields_intro, frame_every_bar; [apply base_price_floor |].
    intros ps i price s Hp. now apply bar_band.
  - apply sample_yields_intro, frame_every_bar; [discriminate |].
    intros ps i price s Hp. now apply bar_band.
Qed.

(** X15. The first drawn return is never used: a non-empty series of
    [RobustDataFetcher] opens and closes its first bar at the base price
    itself, 100.00 for "SPY" and 150.00 for any other symbol. *)
Theorem first_bar_is_base_price `{RS : RandomState} :
  forall (P : Process) (symbol : string) (days : Z) (w : IO.World),
    robust_yields P symbol days w
      (fun df =>
         match df with
         | [] => True
         | (_, b) :: _ =>
             Open b = Close b
             /\ Close b = (if String.eqb symbol "SPY" then 10000 # 100
                           else 15000 # 100)
             /\ (Close b == RobustDataFetcher.base_price_of symbol)%Q
         end).
Proof.
  intros P symbol days w. apply robust_yields_intro. unfold robust_frame.
  pose proof (frame_chained (RobustDataFetcher.seed_of P symbol)
                (RobustDataFetcher.base_price_of symbol)
                (Calendar.weekdays_only
                   (Calendar.date_range
                      (IO.clock w - Calendar.timedelta days) (IO.clock w))))
    as Hch.
  destruct (Calendar.weekdays_only _) as [| d ds].
  - pose proof (frame_length (RobustDataFetcher.seed_of P symbol)
                  (RobustDataFetcher.base_price_of symbol) []) as Hlen.
    destruct (fst (Walk.frame _ _ [])); [exact I | discriminate].
  - destruct (frame_head_close (RobustDataFetcher.seed_of P symbol)
                (RobustDataFetcher.base_price_of symbol) d ds)
      as (b & rest & E & Hc).
    rewrite E in *. cbn [chained] in Hch. destruct Hch as [Ho _].
    split; [exact Ho |]. rewrite Hc.
    unfold RobustDataFetcher.base_price_of.
    destruct (String.eqb symbol "SPY"); split; reflexivity.
Qed.

(** X16. When the endpoint gives data, the fallback flag makes no
    difference: [fetch_data] returns the same result and leaves the same
    world with and without it, and numpy's global generator is not
    reseeded. *)
Theorem fallback_flag_unused_with_real_data `{RS : RandomState} :
  forall (P : Process) (o : RobustDataFetcher.self) (symbol period : string)
         (w : IO.World) (d : DataFrame),
    fst (RobustDataFetcher.fetch_real_data P o symbol period w)
      = Returned (Some d) ->
    RobustDataFetcher.fetch_data P o symbol period true w
    = RobustDataFetcher.fetch_data P o symbol period false w
    /\ IO.np_random (snd (RobustDataFetcher.fetch_data P o symbol period true w))
       = IO.np_random w
    /\ (fst (RobustDataFetcher.fetch_data P o symbol period true w)
          = Returned (Some d)
        \/ exists f,
             fst (RobustDataFetcher.fetch_data P o symbol period true w)
             = Raised (OSError f)).
Proof.
  intros P o symbol period w d H.
  pose proof (fetch_data_real P o symbol period true w d H) as Et.
  pose proof (fetch_data_real P o symbol period false w d H) as Ef.
  cbv zeta in Et, Ef. rewrite Et, Ef.
  split; [reflexivity |].
  destruct (writable P _); cbn; eauto.
Qed.

(** X16 on the live payload. *)
Lemma fallback_flag_unused_with_real_data_witness :
  RobustDataFetcher.fetch_data (Live.process false) Scenario.fetcher
    "SPY" "1y" true Scenario.saturday
  = RobustDataFetcher.fetch_data (Live.process false) Scenario.fetcher
      "SPY" "1y" false Scenario.saturday.
Proof.
  apply (fallback_flag_unused_with_real_data (Live.process false)
           Scenario.fetcher "SPY" "1y" Scenario.saturday
           [Live.row 739036 (525 # 1); Live.row 739037 (528 # 1)]).
  reflexivity.
Defined.

Section KeyFacts.

Lemma prefix_iff (needle hay : string) :
  String.prefix needle hay = true <-> exists post, hay = needle +:+ post.
Proof.
  revert hay. induction needle as [| c needle IH]; intros hay.
  - split; [intros _; now exists hay | intros _; now destruct hay].
  - destruct hay as [| c' hay]; cbn [String.prefix].
    + split; [discriminate | intros [post H]; discriminate].
    + destruct (ascii_dec c c') as [-> | Hne].
      * rewrite IH. split; intros [post H]; exists post.
        -- now rewrite H.
        -- change (String c' hay = String c' (needle +:+ post)) in H.
           now injection H.
      * split; [discriminate |]. intros [post H].
        change (String c' hay = String c (needle +:+ post)) in H.
        injection H as H _. congruence.
Qed.

Lemma contains_iff (needle hay : string) :
  Py.contains needle hay = true
  <-> exists pre post, hay = pre +:+ needle +:+ post.
Proof.
  induction hay as [| c hay IH]; cbn [Py.contains].
  - rewrite orb_false_r, prefix_iff. split.
    + intros [post H]. now exists "", post.
    + intros ([| c pre] & post & H); [now exists post | discriminate].
  - rewrite orb_true_iff, prefix_iff, IH. split.
    + intros [[post H] | (pre & post & H)].
      * now exists "", post.
      * exists (String c pre), post. now rewrite H.
    + intros ([| c' pre] & post & H).
      * left. now exists post.
      * right. exists pre, post.
        change (String c hay = String c' (pre +:+ needle +:+ post)) in H.
        now injection H.
Qed.

End KeyFacts.

(** The pause condition of [fetch_data] holds exactly when the API key
    contains the built-in key as a substring. *)
Lemma rate_limited_iff_key_embedded :
  forall (o : RobustDataFetcher.self),
    RobustDataFetcher.rate_limited o = true
    <-> exists pre post,
          RobustDataFetcher.api_key o
          = pre +:+ RobustDataFetcher.default_key +:+ post.
Proof.
  intros o. unfold RobustDataFetcher.rate_limited.
  destruct (RobustDataFetcher.api_key o) as [| c k] eqn:E.
  - split; [discriminate |].
    intros ([| c pre] & post & H); discriminate.
  - apply contains_iff.
Qed.

Section ValueFacts.
Context `{RS : RandomState}.

(** The bars the loop builds do not depend on the dates they are paired
    with, only on how many there are. *)
Lemma bars_values_by_length ps : forall (d1 d2 : list Calendar.datetime) qs i s,
  length d1 = length d2 ->
  map snd (fst (Walk.bars ps i (combine d1 qs) s))
  = map snd (fst (Walk.bars ps i (combine d2 qs) s)).
Proof.
  induction d1 as [| a d1 IH]; intros [| b d2] qs i s Hlen;
    try discriminate; [reflexivity |].
  destruct qs as [| q qs]; [reflexivity |].
  cbn [combine Walk.bars].
  destruct (Walk.bar ps i q s) as [bar s1].
  specialize (IH d2 qs (S i) s1 ltac:(cbn in Hlen; lia)).
  destruct (Walk.bars ps (S i) (combine d1 qs) s1) as [m1 t1].
  destruct (Walk.bars ps (S i) (combine d2 qs) s1) as [m2 t2].
  cbn in *. now rewrite IH.
Qed.

Lemma frame_values_by_length seed base_price d1 d2 :
  length d1 = length d2 ->
  map snd (fst (Walk.frame seed base_price d1))
  = map snd (fst (Walk.frame seed base_price d2)).
Proof.
  intros Hlen. unfold Walk.frame. rewrite Hlen.
  destruct (normal _ _ _ _) as [rets s1].
  now apply bars_values_by_length.
Qed.

End ValueFacts.

(** X9. [SampleDataFetcher] gives every symbol the same bars: two calls of
    [generate_sample_data], for any two symbols at any two clock readings
    and windows, return the same open, high, low, close and volume columns
    whenever their series have the same number of rows; only the index
    follows the clock. *)
Theorem sample_values_same_for_all_symbols `{RS : RandomState} :
  forall (P : Process) (o : SampleDataFetcher.self) (s1 s2 : string)
         (start1 end1 start2 end2 : option Calendar.datetime) (days1 days2 : Z)
         (w1 w2 : IO.World) (df1 df2 : DataFrame),
    fst (SampleDataFetcher.generate_sample_data P o s1 start1 end1 days1 w1)
      = Returned df1 ->
    fst (SampleDataFetcher.generate_sample_data P o s2 start2 end2 days2 w2)
      = Returned df2 ->
    length df1 = length df2 ->
    map snd df1 = map snd df2.
Proof.
  intros P o s1 s2 start1 end1 start2 end2 days1 days2 w1 w2 df1 df2 H1 H2 Hlen.
  pose proof (sample_generate_eq P o s1 start1 end1 days1 w1) as E1.
  pose proof (sample_generate_eq P o s2 start2 end2 days2 w2) as E2.
  cbv zeta in E1, E2. rewrite E1 in H1. rewrite E2 in H2.
  destruct (writable P _); [| discriminate].
  destruct (writable P _); [| discriminate].
  injection H1 as <-. injection H2 as <-.
  rewrite !frame_length in Hlen. now apply frame_values_by_length.
Qed.

(** X9 for "AAPL" on Saturday 2024-06-01 and "MSFT" twelve seconds later:
    the bars agree although the two indexes differ. *)
Lemma sample_values_same_for_all_symbols_witness :
  exists df1 df2,
    fst (SampleDataFetcher.generate_sample_data (Scenario.offline 0)
           Scenario.sampler "AAPL" None None 30 Scenario.saturday)
      = Returned df1
    /\ fst (SampleDataFetcher.generate_sample_data (Scenario.offline 0)
              Scenario.sampler "MSFT" None None 30 Later.saturday)
       = Returned df2
    /\ map fst df1 <> map fst df2
    /\ map snd df1 = map snd df2.
Proof.
  pose proof (sample_generate_eq (Scenario.offline 0) Scenario.sampler
                "AAPL" None None 30 Scenario.saturday) as E1.
  pose proof (sample_generate_eq (Scenario.offline 0) Scenario.sampler
                "MSFT" None None 30 Later.saturday) as E2.
  cbv zeta in E1, E2.
  change (writable _ _) with true in E1. change (writable _ _) with true in E2.
  cbv iota in E1, E2.
  apply (f_equal fst) in E1. apply (f_equal fst) in E2. cbn [fst] in E1, E2.
  do 2 eexists. split; [exact E1 |]. split; [exact E2 |]. split.
  - rewrite !frame_index. vm_compute. discriminate.
  - apply (sample_values_same_for_all_symbols _ _ _ _ _ _ _ _ _ _ _ _ _ _
             E1 E2).
    rewrite !frame_length. vm_compute. reflexivity.
Defined.

(** X17. [RobustDataFetcher.fetch_data] advances the clock by 12 seconds
    or not at all, and by 12 seconds exactly when it returns a series
    (which it has then saved) and the API key contains the built-in key as
    a substring: the key itself, or any longer key that embeds it. *)
Theorem fetch_data_pauses_iff_key_embedded `{RS : RandomState} :
  forall (P : Process) (o : RobustDataFetcher.self) (symbol period : string)
         (fallback : bool) (w : IO.World),
    let r := RobustDataFetcher.fetch_data P o symbol period fallback w in
    (IO.clock (snd r) = IO.clock w
     \/ IO.clock (snd r) = IO.clock w + Calendar.seconds 12)
    /\ (IO.clock (snd r) = IO.clock w + Calendar.seconds 12
        <-> (exists d, fst r = Returned (Some d))
            /\ exists pre post,
                 RobustDataFetcher.api_key o
                 = pre +:+ RobustDataFetcher.default_key +:+ post).
Proof.
  intros P o symbol period fallback w r.
  assert (Hcases :
    (IO.clock (snd r) = IO.clock w
     /\ ((exists d, fst r = Returned (Some d)) ->
         RobustDataFetcher.rate_limited o = false))
    \/ (IO.clock (snd r) = IO.clock w + Calendar.seconds 12
        /\ (exists d, fst r = Returned (Some d))
        /\ RobustDataFetcher.rate_limited o = true)).
  { subst r.
    assert (Hsaved : forall d s f,
      let r := (Returned (Some d),
                {| IO.clock := after_save o (IO.clock w); IO.np_random := s;
                   IO.files := f |}) : outcome (option DataFrame) * IO.World in
      (IO.clock (snd r) = IO.clock w
       /\ ((exists d, fst r = Returned (Some d)) ->
           RobustDataFetcher.rate_limited o = false))
      \/ (IO.clock (snd r) = IO.clock w + Calendar.seconds 12
          /\ (exists d, fst r = Returned (Some d))
          /\ RobustDataFetcher.rate_limited o = true)).
    { intros d s f. cbn. unfold after_save.
      destruct (RobustDataFetcher.rate_limited o); [right | left]; eauto. }
    destruct (fetch_daily_pure P (RobustDataFetcher.base_url o)
                (RobustDataFetcher.api_key o) symbol period w) as [[d |] E].
    - pose proof (fetch_data_real P o symbol period fallback w d) as F.
      unfold RobustDataFetcher.fetch_real_data in F. rewrite E in F.
      specialize (F eq_refl). cbv zeta in F. rewrite F.
      destruct (writable P _); [apply Hsaved |].
      left. cbn. split; [reflexivity |]. intros [d' Hd']. discriminate.
    - destruct fallback.
      + pose proof (fetch_data_fallback P o symbol period w) as F.
        unfold RobustDataFetcher.fetch_real_data in F. rewrite E in F.
        specialize (F eq_refl). cbv zeta in F. rewrite F.
        destruct (writable P _); [apply Hsaved |].
        left. cbn. split; [reflexivity |]. intros [d' Hd']. discriminate.
      + pose proof (fetch_data_no_fallback P o symbol period w) as F.
        unfold RobustDataFetcher.fetch_real_data in F. rewrite E in F.
        specialize (F eq_refl). rewrite F.
        left. cbn. split; [reflexivity |]. intros [d' Hd']. discriminate. }
  pose proof (rate_limited_iff_key_embedded o) as Hkey.
  assert (H12 : Calendar.seconds 12 <> 0) by discriminate.
  destruct Hcases as [[Hc Hno] | (Hc & Hd & Hrl)].
  - split; [now left |]. split.
    + intros Hc'. rewrite Hc in Hc'. lia.
    + intros [Hd Hemb]. apply Hkey in Hemb. rewrite (Hno Hd) in Hemb.
      discriminate.
  - split; [now right |]. split; [| intros _; exact Hc].
    intros _. split; [exact Hd | now apply Hkey].
Qed.
